(** * The authenticated-request pipeline of the Jamf classic API client

    A shallow embedding of the client of package [classic]: client construction
    ([NewClient]), bearer-token acquisition ([requestToken]), the expiration
    guard ([checkTokenExpiration]) and the request dispatcher with its
    format decoder ([makeAPIrequest]).

    Go values are modelled as follows.
    - [error] is [option string]: [None] is [nil], [Some msg] is a non-nil
      error whose [Error()] text is [msg].
    - [http.Header] (a [map[string][]string]) is a [gmap string (list string)].
    - The mutable receiver [j *Client], the request [r *http.Request] and the
      result container [v] are threaded explicitly: every method returns the
      values it may have written next to its [error].
    - The network and the clock form a [World]: the instant [time.Now()]
      reports and the log of the requests handed to the transport so far.
    - What the Go standard library does to bytes (URL parsing, RFC3339
      parsing, base64, JSON and XML decoding, the default transport) is taken
      as an interface: the classes [Platform], [JSONUnmarshal] and
      [XMLUnmarshal]. *)

From stdpp Require Import base strings list gmap.
From Stdlib Require Import Ascii ZArith Lia.

Local Open Scope Z_scope.

(** ** [github.com/pkg/errors] and [fmt.Errorf] *)

Definition error := option string.

Module Errors.
(** [errors.New(msg)]. *)
Definition New (msg : string) : error := Some msg.

(** [fmt.Errorf] with the format already expanded. *)
Definition Errorf (msg : string) : error := Some msg.

(** [errors.Wrapf(err, format, args...)] with the format already expanded:
    [nil] when [err] is [nil], otherwise an error whose text is the message,
    a colon and the text of the cause. *)
Definition Wrapf (err : error) (msg : string) : error :=
  match err with
  | None => None
  | Some cause => Some (msg +:+ ": " +:+ cause)
  end.
End Errors.

(** ** [strings] *)

Module Strings.
(** [strings.HasPrefix(s, prefix)]. *)
Fixpoint HasPrefix (s prefix : string) {struct prefix} : bool :=
  match prefix, s with
  | EmptyString, _ => true
  | String _ _, EmptyString => false
  | String a prefix', String b s' =>
      if Ascii.eqb a b then HasPrefix s' prefix' else false
  end.

(** [strings.Contains(s, substr)]. *)
Fixpoint Contains (s substr : string) : bool :=
  HasPrefix s substr ||
  match s with
  | EmptyString => false
  | String _ s' => Contains s' substr
  end.

(** [strings.Split(s, sep)] for a one-byte separator: the pieces of [s]
    between the occurrences of [sep], in order. *)
Fixpoint Split (s : string) (sep : Ascii.ascii) : list string :=
  match s with
  | EmptyString => [EmptyString]
  | String c s' =>
      if Ascii.eqb c sep then EmptyString :: Split s' sep
      else match Split s' sep with
           | [] => [String c EmptyString]
           | piece :: pieces => String c piece :: pieces
           end
  end.
End Strings.

(** [sub] occurs somewhere inside [s]. *)
Definition Mentions (sub s : string) : Prop :=
  exists pre post, s = pre +:+ sub +:+ post.

(** ** [time] *)

Module GoTime.
(** A [time.Time] is an instant, in nanoseconds since the Unix epoch; a
    [time.Duration] is a signed 64-bit count of nanoseconds. *)
Definition Time := Z.
Definition Duration := Z.

Definition Second : Duration := 1000000000.
Definition Minute : Duration := 60 * Second.

Definition minDuration : Duration := - 2 ^ 63.
Definition maxDuration : Duration := 2 ^ 63 - 1.

(** [t.Sub(u)]: the difference, saturated to the range of [Duration]. *)
Definition Sub (t u : Time) : Duration :=
  let d := t - u in
  if d <? minDuration then minDuration
  else if maxDuration <? d then maxDuration
  else d.

(** [time.Until(t)] read against the instant [now]. *)
Definition Until (now t : Time) : Duration := Sub t now.
End GoTime.

(** ** [io] and [net/http] *)

(** A response body: the bytes it holds and the error, if any, that reading
    it to the end reports. *)
Record Body := mkBody { data : string; readErr : error }.

Module Io.
(** [io.ReadAll(body)]. *)
Definition ReadAll (b : Body) : string * error := (data b, readErr b).
End Io.

Module Header.
Abbreviation t := (gmap string (list string)).

(** [h.Set(key, value)]; every key the client uses is in canonical form. *)
Definition Set_ (h : t) (key value : string) : t := <[key := [value]]> h.

(** [h.Get(key)]: the first value stored under [key], or the empty string. *)
Definition Get (h : t) (key : string) : string :=
  match h !! key with
  | Some (value :: _) => value
  | _ => EmptyString
  end.
End Header.

Module Request.
Record t := mk { Method : string; URL : string; Header : Header.t }.

Definition SetHeader (r : t) (key value : string) : t :=
  mk (Method r) (URL r) (Header.Set_ (Header r) key value).
End Request.

Module Response.
Record t := mk {
  StatusCode : Z;
  Status : string;
  Header : Header.t;
  Body_ : Body
}.
End Response.

(** A transport answers a request, given the requests sent before it, with a
    response or with the text of a transport error. *)
Definition RoundTripper := list Request.t -> Request.t -> Response.t + string.

Module HttpClient.
(** [http.Client]: a [nil] transport stands for [http.DefaultTransport]. *)
Record t := mk { Timeout : GoTime.Duration; Transport : option RoundTripper }.
End HttpClient.

Record World := mkWorld {
  now : GoTime.Time;
  wire : list Request.t
}.

(** ** The standard library as an interface *)

(** What the client asks of the Go standard library and of the network. *)
Class Platform := {
  (** [url.Parse], as [http.NewRequestWithContext] uses it: [nil], or the
      error for a target that is not a URL. *)
  url_Parse : string -> error;
  (** [time.Parse(time.RFC3339, s)]: the instant, or the text of the error. *)
  time_Parse_RFC3339 : string -> GoTime.Time + string;
  (** The base64 text of [username:password]. *)
  basicAuth : string -> string -> string;
  (** [http.DefaultTransport]. *)
  DefaultTransport : RoundTripper
}.

(** A value that [json.NewDecoder(body).Decode], respectively
    [xml.NewDecoder(body).Decode], can fill.  Decoding writes into the value
    it is given: the result is the value as the decoder left it and the
    decoder's error. *)
Class JSONUnmarshal (V : Type) := json_Decode : Body -> V -> V * error.
Class XMLUnmarshal (V : Type) := xml_Decode : Body -> V -> V * error.

Module Http.
(** [http.NewRequestWithContext(context.Background(), method, url, body)]
    for a method that is a valid token and an empty or absent body. *)
Definition NewRequestWithContext `{Platform} (method url : string)
  : Request.t + string :=
  match url_Parse url with
  | Some err => inr err
  | None => inl (Request.mk method url ∅)
  end.

(** [r.SetBasicAuth(username, password)]. *)
Definition SetBasicAuth `{Platform} (r : Request.t) (username password : string)
  : Request.t :=
  Request.SetHeader r "Authorization" ("Basic " +:+ basicAuth username password).

(** [c.Do(req)]: the request goes on the wire and the transport answers. *)
Definition Do `{Platform} (c : HttpClient.t) (req : Request.t) (w : World)
  : World * (Response.t + string) :=
  let rt := default DefaultTransport (HttpClient.Transport c) in
  (mkWorld (now w) (req :: wire w), rt (wire w) req).
End Http.

(** ** The client *)

(** [JamfToken] represents the bearer token required for client
    authentication. *)
Module JamfToken.
Record t := mk { Token : string; Expires : string }.
End JamfToken.
Abbreviation JamfToken := JamfToken.t.

(** [Client] represents the interface used to communicate with the Jamf API
    via an HTTP client.  The token store [Token] is the [JamfToken] the
    pointer field of the Go struct refers to; [NewClient] always allocates
    one.  The [logger] field, which no method reads, is left out. *)
Record Client := mkClient {
  Domain : string;
  Username : string;
  Password : string;
  Endpoint : string;
  Token : JamfToken;
  api : HttpClient.t
}.

Definition setToken (j : Client) (tok : JamfToken) : Client :=
  mkClient (Domain j) (Username j) (Password j) (Endpoint j) tok (api j).

(** Used if custom client not passed on when [NewClient] instantiated. *)
Definition defaultHTTPClient : HttpClient.t :=
  HttpClient.mk GoTime.Minute None.

Definition configurationError : string :=
  "you must provide a valid Jamf domain, username, and password".

(** [NewClient] returns a new Jamf HTTP client to be used for API requests. *)
Definition NewClient (domain username password : string)
    (client : option HttpClient.t) : option Client * error :=
  if String.eqb domain "" || String.eqb username "" || String.eqb password ""
  then (None, Errors.New configurationError)
  else
    let client :=
      match client with
      | None => defaultHTTPClient
      | Some c => c
      end in
    (Some (mkClient domain username password (domain +:+ "/JSSResource")
             (JamfToken.mk "" "") client),
     None).

(** A status code that the client takes for success. *)
Definition statusOK (code : Z) : bool := (code =? 200) || (code =? 201).

(** The error of the branch taken when the status code is not ok: the
    response is read in plain text. *)
Definition requestError (res : Response.t) : error :=
  match Io.ReadAll (Response.Body_ res) with
  | (_, Some err) =>
      Errors.Wrapf (Some err)
        ("request error: " +:+ Response.Status res +:+
         ". unable to retrieve plain text response: " +:+ err)
  | (responseData, None) => Errors.Errorf ("request error: " +:+ responseData)
  end.

Section pipeline.
Context {P : Platform} {JT : JSONUnmarshal JamfToken}.

Definition requestToken (j : Client) (w : World) : Client * World * error :=
  (* Create endpoint for token request *)
  let endpoint := Domain j +:+ "/api/v1/auth/token" in
  match Http.NewRequestWithContext "POST" endpoint with
  | inr err =>
      (j, w, Errors.Wrapf (Some err) "error creating bearer token request")
  | inl req =>
      let req := Http.SetBasicAuth req (Username j) (Password j) in
      let '(w, res) := Http.Do (api j) req w in
      match res with
      | inr err =>
          (j, w, Errors.Wrapf (Some err)
                   ("error making " +:+ Request.Method req +:+
                    " request to " +:+ Request.URL req))
      | inl res =>
          (* If status code is not ok attempt to read the response in plain text *)
          if negb (statusOK (Response.StatusCode res))
          then (j, w, requestError res)
          else
            let '(tok, err) := json_Decode (Response.Body_ res) (Token j) in
            let j := setToken j tok in
            match err with
            | Some _ =>
                (j, w, Errors.Wrapf err
                   "response was successful but error occured decoding JSON token response")
            | None => (j, w, None)
            end
      end
  end.

Definition checkTokenExpiration (j : Client) (w : World)
  : Client * World * error :=
  (* Check for the existance of a bearer token and, if we already have a
     token, check the expiration timestamp *)
  let acquire :=
    let '(j, w, err) := requestToken j w in
    match err with
    | Some _ => (j, w, Errors.Wrapf err "error requesting new bearer token")
    | None => (j, w, None)
    end in
  if negb (String.eqb (JamfToken.Expires (Token j)) "") then
    match time_Parse_RFC3339 (JamfToken.Expires (Token j)) with
    | inr err =>
        (j, w, Errors.Wrapf (Some err)
                 ("error parsing the bearer token expiration date: " +:+
                  JamfToken.Expires (Token j)))
    | inl tokenExpires =>
        if GoTime.Minute * 5 <? GoTime.Until (now w) tokenExpires
        then (j, w, None)
        else acquire
    end
  else acquire.

(** The four [r.Header.Set] calls of [makeAPIrequest]. *)
Definition setRequestHeaders (j : Client) (r : Request.t) : Request.t :=
  let r := Request.SetHeader r "Accept" "application/json, application/xml;q=0.9" in
  let r := Request.SetHeader r "Cache-Control"
             "no-store, no-cache, must-revalidate, max-age=0, post-check=0, pre-check=0" in
  let r := Request.SetHeader r "Strict-Transport-Security"
             "max-age=31536000 ; includeSubDomains" in
  Request.SetHeader r "Authorization" ("Bearer " +:+ JamfToken.Token (Token j)).

(** [strings.Split(res.Header.Get("Content-Type"), ";")[0]]. *)
Definition baseMediaType (res : Response.t) : string :=
  match Strings.Split (Header.Get (Response.Header res) "Content-Type") ";"%char with
  | t :: _ => t
  | [] => EmptyString
  end.

Context {V : Type} {JV : JSONUnmarshal V} {XV : XMLUnmarshal V}.

Definition makeAPIrequest (j : Client) (r : Request.t) (v : V) (w : World)
  : Client * Request.t * V * World * error :=
  let '(j, w, err) := checkTokenExpiration j w in
  match err with
  | Some _ =>
      (j, r, v, w, Errors.Wrapf err "error checking for bearer token expiration")
  | None =>
      let r := setRequestHeaders j r in
      let '(w, res) := Http.Do (api j) r w in
      match res with
      | inr e =>
          (j, r, v, w, Errors.Wrapf (Some e)
                         ("error making " +:+ Request.Method r +:+
                          " request to " +:+ Request.URL r))
      | inl res =>
          (* [err] is [nil] from here on, until a decoder assigns it *)
          let err : error := None in
          if negb (statusOK (Response.StatusCode res))
          then (j, r, v, w, requestError res)
          else
            let t := baseMediaType res in
            if String.eqb t "text/xml" || String.eqb t "application/xml" then
              let '(v, err) := xml_Decode (Response.Body_ res) v in
              match err with
              | Some _ =>
                  (j, r, v, w, Errors.Wrapf err
                     ("response was successful but error occured decoding response body of type " +:+ t))
              | None => (j, r, v, w, None)
              end
            else if String.eqb t "text/json" || String.eqb t "application/json"
                    || String.eqb t "text/plain" then
              let '(v, err) := json_Decode (Response.Body_ res) v in
              match err with
              | Some _ =>
                  (j, r, v, w, Errors.Wrapf err
                     ("response was successful but error occured error decoding response body of type " +:+ t))
              | None => (j, r, v, w, None)
              end
            else
              (j, r, v, w, Errors.Wrapf err
                 ("response was successful but error occured recieved unexpected response body of type " +:+ t))
      end
  end.
End pipeline.

(** The media types of the two decoding cases of the switch in
    [makeAPIrequest]. *)
Definition markupTypes : list string := ["text/xml"; "application/xml"].
Definition jsonTypes : list string := ["text/json"; "application/json"; "text/plain"].

(** ** A test double

    A platform, decoders and a server in the manner of [client_test.go]:
    enough of JSON to decode a flat object of strings and numbers into a
    struct of string fields, as [encoding/json] does (members are assigned in
    order, a member of the wrong kind is skipped and the first such mismatch
    is the error reported at the end), and a server that answers a handful
    of addresses. *)

Module Mock.
Definition dquote : ascii := "034"%char.

(** [s] between double quotes. *)
Definition quoted (s : string) : string :=
  String dquote (s +:+ String dquote EmptyString).

Inductive jvalue := JString (s : string) | JNumber (n : Z).

Inductive token :=
| LBrace | RBrace | Colon | Comma
| Str (s : string)
| Num (n : Z).

Inductive mode :=
| Plain
| InStr (seen : list ascii)
| InNum (n : Z).

Definition digit (c : ascii) : option Z :=
  let n := Z.of_nat (nat_of_ascii c) in
  if (48 <=? n) && (n <=? 57) then Some (n - 48) else None.

Definition isSpace (c : ascii) : bool :=
  Ascii.eqb c " " || Ascii.eqb c "010" || Ascii.eqb c "009" || Ascii.eqb c "013".

(** One byte read outside of a string or number. *)
Definition plain (c : ascii) : option (list token * mode) :=
  if isSpace c then Some ([], Plain)
  else if Ascii.eqb c "{" then Some ([LBrace], Plain)
  else if Ascii.eqb c "}" then Some ([RBrace], Plain)
  else if Ascii.eqb c ":" then Some ([Colon], Plain)
  else if Ascii.eqb c "," then Some ([Comma], Plain)
  else if Ascii.eqb c dquote then Some ([], InStr [])
  else match digit c with
       | Some d => Some ([], InNum d)
       | None => None
       end.

Fixpoint lex (m : mode) (s : string) : option (list token) :=
  match s with
  | EmptyString =>
      match m with
      | Plain => Some []
      | InNum n => Some [Num n]
      | InStr _ => None
      end
  | String c s' =>
      match m with
      | InStr seen =>
          if Ascii.eqb c dquote
          then cons (Str (String.string_of_list_ascii (rev seen))) <$> lex Plain s'
          else lex (InStr (c :: seen)) s'
      | InNum n =>
          match digit c with
          | Some d => lex (InNum (10 * n + d)) s'
          | None =>
              match plain c with
              | Some (ts, m') => (fun rest => Num n :: ts ++ rest) <$> lex m' s'
              | None => None
              end
          end
      | Plain =>
          match plain c with
          | Some (ts, m') => app ts <$> lex m' s'
          | None => None
          end
      end
  end.

Definition value (t : token) : option jvalue :=
  match t with
  | Str s => Some (JString s)
  | Num n => Some (JNumber n)
  | _ => None
  end.

Fixpoint members (ts : list token) : option (list (string * jvalue)) :=
  match ts with
  | Str k :: Colon :: t :: rest =>
      match value t with
      | None => None
      | Some jv =>
          match rest with
          | [RBrace] => Some [(k, jv)]
          | Comma :: rest' => cons (k, jv) <$> members rest'
          | _ => None
          end
      end
  | _ => None
  end.

(** The members of the JSON object that [s] spells. *)
Definition parseObject (s : string) : option (list (string * jvalue)) :=
  match lex Plain s with
  | Some [LBrace; RBrace] => Some []
  | Some (LBrace :: ts) => members ts
  | _ => None
  end.

(** A struct of string fields: the JSON name of each field and how to set it. *)
Definition fields (V : Type) := list (string * (string -> V -> V)).

Fixpoint setter {V} (fs : fields V) (name : string) : option (string -> V -> V) :=
  match fs with
  | [] => None
  | (n, set) :: fs' => if String.eqb n name then Some set else setter fs' name
  end.

(** Assign the members in order; a number meant for a string field is
    skipped and remembered as the error when it is the first. *)
Fixpoint assign {V} (fs : fields V) (ms : list (string * jvalue)) (v : V)
  : V * error :=
  match ms with
  | [] => (v, None)
  | (name, jv) :: ms' =>
      match setter fs name, jv with
      | None, _ => assign fs ms' v
      | Some set, JString s => assign fs ms' (set s v)
      | Some _, JNumber _ =>
          let '(v', err) := assign fs ms' v in
          (v', Some ("json: cannot unmarshal number into Go struct field " +:+
                     name +:+ " of type string"))
      end
  end.

(** [json.NewDecoder(body).Decode(&v)] for a struct of string fields. *)
Definition decodeJSON {V} (fs : fields V) (body : Body) (v : V) : V * error :=
  match readErr body with
  | Some err => (v, Some err)
  | None =>
      match parseObject (data body) with
      | None => (v, Some "invalid character looking for beginning of value")
      | Some ms => assign fs ms v
      end
  end.

(** [s] without the leading [prefix], when it starts with it. *)
Fixpoint trimPrefix (s prefix : string) {struct prefix} : option string :=
  match prefix, s with
  | EmptyString, _ => Some s
  | String a prefix', String b s' =>
      if Ascii.eqb a b then trimPrefix s' prefix' else None
  | String _ _, EmptyString => None
  end.

(** The text up to the first [<], and what follows from there. *)
Fixpoint chardata (s : string) : string * string :=
  match s with
  | EmptyString => (EmptyString, EmptyString)
  | String c s' =>
      if Ascii.eqb c "<" then (EmptyString, s)
      else let '(text, rest) := chardata s' in (String c text, rest)
  end.

(** [xml.NewDecoder(body).Decode(&v)] for a document with one element of
    character data inside its root element. *)
Definition decodeXML {V} (root field : string) (set : string -> V -> V)
    (body : Body) (v : V) : V * error :=
  match readErr body with
  | Some err => (v, Some err)
  | None =>
      match trimPrefix (data body) ("<" +:+ root +:+ "><" +:+ field +:+ ">") with
      | None => (v, Some ("expected element type <" +:+ root +:+ ">"))
      | Some s =>
          let '(text, rest) := chardata s in
          if String.eqb rest ("</" +:+ field +:+ "></" +:+ root +:+ ">")
          then (set text v, None)
          else (set text v, Some "XML syntax error: unexpected EOF")
      end
  end.

#[export] Instance tokenJSON : JSONUnmarshal JamfToken :=
  decodeJSON
    [("token", fun s tok => JamfToken.mk s (JamfToken.Expires tok));
     ("expires", fun s tok => JamfToken.mk (JamfToken.Token tok) s)].

(** [MockResponse] of the tests. *)
Record MockResponse := mkMockResponse { Status : string }.

#[export] Instance responseJSON : JSONUnmarshal MockResponse :=
  decodeJSON [("status", fun s _ => mkMockResponse s)].

#[export] Instance responseXML : XMLUnmarshal MockResponse :=
  decodeXML "MockResponse" "Status" (fun s _ => mkMockResponse s).

(** A device record with two string fields. *)
Record Device := mkDevice { name : string; serial : string }.

#[export] Instance deviceJSON : JSONUnmarshal Device :=
  decodeJSON
    [("name", fun s d => mkDevice s (serial d));
     ("serial_number", fun s d => mkDevice (name d) s)].

#[export] Instance deviceXML : XMLUnmarshal Device :=
  decodeXML "computer" "name" (fun s d => mkDevice s (serial d)).

Definition server : string := "http://127.0.0.1:8080".

Definition contentType (t : string) : Header.t := {[ "Content-Type" := [t] ]}.

Definition ok (mediaType body : string) : Response.t + string :=
  inl (Response.mk 200 "200 OK" (contentType mediaType) (mkBody body None)).

Definition tokenBody : string :=
  "{" +:+ quoted "token" +:+ ":" +:+ quoted "abcdefghijklmnopqrstuvwxyz" +:+ "," +:+
  quoted "expires" +:+ ":" +:+ quoted "2026-11-01T00:00:00Z" +:+ "}".

Definition statusBody : string :=
  "{ " +:+ quoted "status" +:+ ": " +:+ quoted "OK" +:+ " }".

(** The answer to an address the server does not know. *)
Definition rejected (url : string) : Response.t :=
  Response.mk 500 "500 Internal Server Error"
    (contentType "text/plain; charset=utf-8")
    (mkBody ("bad API call to " +:+ url) None).

Definition maintenance : Response.t :=
  Response.mk 200 "200 OK" (contentType "text/html; charset=utf-8")
    (mkBody "<html><body>maintenance</body></html>" None).

(** The handler of the test server, with a few more addresses. *)
Definition handler (url : string) : Response.t + string :=
  if String.eqb url (server +:+ "/api/v1/auth/token") then
    ok "application/json" tokenBody
  else if String.eqb url (server +:+ "/JSSResource/mock/test") then
    ok "text/plain; charset=utf-8" statusBody
  else if String.eqb url (server +:+ "/JSSResource/mock/xml") then
    ok "text/xml;charset=UTF-8" "<MockResponse><Status>OK</Status></MockResponse>"
  else if String.eqb url (server +:+ "/JSSResource/mock/html") then
    inl maintenance
  else if String.eqb url (server +:+ "/JSSResource/computers/id/7") then
    ok "application/json"
       ("{" +:+ quoted "name" +:+ ":" +:+ quoted "lab-mac-07" +:+ "," +:+
        quoted "serial_number" +:+ ":7}")
  else if String.eqb url (server +:+ "/JSSResource/mock/hangup") then
    inr "EOF"
  else inl (rejected url).

Definition transport : RoundTripper := fun _ req => handler (Request.URL req).

(** An instant, in nanoseconds, from epoch seconds. *)
Definition at_ (seconds : Z) : GoTime.Time := seconds * GoTime.Second.

(** 2026-11-01T00:00:00Z. *)
Definition expiry : GoTime.Time := at_ 1793491200.

#[export] Instance platform : Platform := {|
  url_Parse url :=
    if Strings.Contains url " " then Some ("parse " +:+ url +:+ ": invalid character in host name")
    else None;
  time_Parse_RFC3339 s :=
    if String.eqb s "2026-11-01T00:00:00Z" then inl expiry
    else inr ("parsing time " +:+ s +:+ " as 2006-01-02T15:04:05Z07:00: cannot parse");
  (* the credentials are left unencoded *)
  basicAuth username password := username +:+ ":" +:+ password;
  DefaultTransport := transport
|}.

(** A client of the test server, as [NewClient] builds it, holding [tok]. *)
Definition client (tok : JamfToken) : Client :=
  mkClient server "fake-username" "mock-password-cool"
    (server +:+ "/JSSResource") tok defaultHTTPClient.

Definition get (url : string) : Request.t := Request.mk "GET" url ∅.

Definition testToken : JamfToken :=
  JamfToken.mk "abcdefghijklmnopqrstuvwxyz" "2026-11-01T00:00:00Z".

(** A client that holds no token yet, and one that holds [testToken]. *)
Definition fresh : Client := client (JamfToken.mk "" "").
Definition signedIn : Client := client testToken.

(** A client whose expiration timestamp is not a timestamp. *)
Definition confused : Client := client (JamfToken.mk "abc" "tomorrow").

(** A client pointed at a path the server does not serve. *)
Definition astray : Client :=
  mkClient (server +:+ "/elsewhere") "fake-username" "mock-password-cool"
    (server +:+ "/elsewhere/JSSResource") (JamfToken.mk "" "") defaultHTTPClient.

(** A client whose transport always fails. *)
Definition offline : Client :=
  mkClient server "fake-username" "mock-password-cool"
    (server +:+ "/JSSResource") (JamfToken.mk "" "")
    (HttpClient.mk GoTime.Minute (Some (fun _ _ => inr "connection refused"))).

(** Nothing sent yet; three hours, respectively five minutes to the
    second, before [expiry]. *)
Definition morning : World := mkWorld (at_ (1793491200 - 10800)) [].
Definition lastCall : World := mkWorld (at_ (1793491200 - 300)) [].

(** The world once [r] has been sent. *)
Definition sent (w : World) (r : Request.t) : World :=
  mkWorld (now w) (r :: wire w).

(** The request [requestToken] builds for [j], before and after the
    credentials are set. *)
Definition newTokenRequest (j : Client) : Request.t :=
  Request.mk "POST" (Domain j +:+ "/api/v1/auth/token") ∅.

Definition tokenRequest (j : Client) : Request.t :=
  Request.SetHeader (newTokenRequest j)
    "Authorization" ("Basic " +:+ Username j +:+ ":" +:+ Password j).
End Mock.

(** ** The callers of the pipeline *)

Definition classesContext : string := "classes".
Definition computersContext : string := "computers".
Definition computerExtAttrContext : string := "computerextensionattributes".
Definition policiesContext : string := "policies".
Definition scriptsContext : string := "scripts".

(** [errors.Wrap(err, message)]: as [Wrapf], without a format. *)
Definition errors_Wrap (err : error) (message : string) : error :=
  match err with
  | None => None
  | Some cause => Some (message +:+ ": " +:+ cause)
  end.

(** The request [requestToken] hands to the transport: the [POST] to the
    authentication endpoint, with the credentials set. *)
Definition authRequest `{Platform} (j : Client) : Request.t :=
  Http.SetBasicAuth (Request.mk "POST" (Domain j +:+ "/api/v1/auth/token") ∅)
    (Username j) (Password j).

(** Two clients with the same configuration: they differ at most in the
    token they hold. *)
Definition sameConfiguration (j j' : Client) : Prop :=
  Domain j' = Domain j /\ Username j' = Username j /\ Password j' = Password j /\
  Endpoint j' = Endpoint j /\ api j' = api j.

Section callers.
Context {P : Platform} {JT : JSONUnmarshal JamfToken}.

Section mock_request.
Context {V : Type} {JV : JSONUnmarshal V} {XV : XMLUnmarshal V}.

(** [MockAPIRequest] is used for testing the API client: the request it
    returns is the one it was given, as the calls have left it. *)
Definition MockAPIRequest (j : Client) (r : Request.t) (v : V) (w : World)
  : Client * Request.t * V * World * error :=
  let r := Request.SetHeader r "Accept" "application/json,  application/xml;q=0.9" in
  let r := Http.SetBasicAuth r (Username j) (Password j) in
  makeAPIrequest j r v w.
End mock_request.

(** What [computer.go] takes from files of the package that are not at hand:
    the types [ComputerList] and [Computer] with their zero values, the
    function [EndpointBuilder] and the text [%v] gives of an identifier.  The
    container handed to [makeAPIrequest] is the address of a pointer to the
    struct, so what the decoders fill is a pointer, which they may leave
    [nil]. *)
Context {ComputerList Computer Identifier : Type}.
Context (zeroComputerList : ComputerList) (zeroComputer : Computer).
Context (EndpointBuilder : string -> string -> Identifier -> string + string).
Context (format_v : Identifier -> string).
Context {JL : JSONUnmarshal (option ComputerList)}
        {XL : XMLUnmarshal (option ComputerList)}
        {JC : JSONUnmarshal (option Computer)}
        {XC : XMLUnmarshal (option Computer)}.

(** [Computers] returns all enrolled computer devices. *)
Definition Computers (j : Client) (w : World)
  : option ComputerList * Client * World * error :=
  let ep := Endpoint j +:+ "/" +:+ computersContext in
  match Http.NewRequestWithContext "GET" ep with
  | inr err =>
      (None, j, w, errors_Wrap (Some err) "error building JAMF computer query request")
  | inl req =>
      let res := Some zeroComputerList in
      let '(j, _, res, w, err) := makeAPIrequest j req res w in
      match err with
      | Some _ =>
          (None, j, w,
           Errors.Wrapf err ("unable to query enrolled computers from " +:+ ep))
      | None => (res, j, w, None)
      end
  end.

(** [ComputerDetails] returns the details for a specific computer given its
    ID. *)
Definition ComputerDetails (identifier : Identifier) (j : Client) (w : World)
  : option Computer * Client * World * error :=
  match EndpointBuilder (Endpoint j) computersContext identifier with
  | inr err =>
      (None, j, w,
       Errors.Wrapf (Some err)
         ("error building JAMF query request endpoint for computer: " +:+
          format_v identifier))
  | inl ep =>
      match Http.NewRequestWithContext "GET" ep with
      | inr err =>
          (None, j, w,
           Errors.Wrapf (Some err)
             ("error building JAMF computer request for computer: " +:+
              format_v identifier +:+ " (" +:+ ep +:+ ")"))
      | inl req =>
          let res := Some zeroComputer in
          let '(j, _, res, w, err) := makeAPIrequest j req res w in
          match err with
          | Some _ =>
              (None, j, w,
               Errors.Wrapf err
                 ("unable to query enrolled computer for computer: " +:+
                  format_v identifier +:+ " (" +:+ ep +:+ ")"))
          | None => (res, j, w, None)
          end
      end
  end.
End callers.

(** ** A test double for the callers *)

Module MockInventory.
(** A list of computers reduced to its size, and a computer. *)
Record Roster := mkRoster { size : string }.

(** The JSON decoder of structs, for the address of a pointer, which is
    what the callers pass: [encoding/json] follows the pointers down to the
    struct, and a [nil] pointer is given a fresh struct to decode into. *)
Definition intoPointer {T} (zero : T) (decode : Body -> T -> T * error)
    (body : Body) (p : option T) : option T * error :=
  let '(t, err) := decode body (default zero p) in (Some t, err).

(** The XML decoder, for the address of a pointer: [encoding/xml] looks for
    the first element, unwraps the interface and one pointer, and is left
    with a pointer, a kind it does not decode; it reports an unknown type
    and leaves the pointer alone. *)
Definition xmlThroughPointer {T} (typeName : string) (body : Body) (p : option T)
  : option T * error :=
  match readErr body with
  | Some err => (p, Some err)
  | None =>
      if Strings.Contains (data body) "<"
      then (p, Some ("unknown type *" +:+ typeName))
      else (p, Some "EOF")
  end.

#[export] Instance rosterJSON : JSONUnmarshal (option Roster) :=
  intoPointer (mkRoster "")
    (Mock.decodeJSON [("size", fun s _ => mkRoster s)]).

#[export] Instance rosterXML : XMLUnmarshal (option Roster) :=
  xmlThroughPointer "classic.ComputerList".

#[export] Instance deviceJSON : JSONUnmarshal (option Mock.Device) :=
  intoPointer (Mock.mkDevice "" "") Mock.deviceJSON.

#[export] Instance deviceXML : XMLUnmarshal (option Mock.Device) :=
  xmlThroughPointer "classic.Computer".

(** The test server with an inventory: the list of computers, one computer
    served as XML and one served as JSON; any other address goes to the
    handler of the test server. *)
Definition transport : RoundTripper := fun _ req =>
  if String.eqb (Request.URL req) (Mock.server +:+ "/JSSResource/computers") then
    Mock.ok "application/json" ("{" +:+ Mock.quoted "size" +:+ ":" +:+ Mock.quoted "2" +:+ "}")
  else if String.eqb (Request.URL req) (Mock.server +:+ "/JSSResource/computers/id/3") then
    Mock.ok "text/xml" "<computer><name>lab-mac-03</name></computer>"
  else if String.eqb (Request.URL req) (Mock.server +:+ "/JSSResource/computers/id/4") then
    Mock.ok "application/json"
      ("{" +:+ Mock.quoted "name" +:+ ":" +:+ Mock.quoted "lab-mac-04" +:+ "," +:+
       Mock.quoted "serial_number" +:+ ":" +:+ Mock.quoted "C02XK0AAJGH5" +:+ "}")
  else Mock.handler (Request.URL req).

(** A client of that server, holding [tok]. *)
Definition client (tok : JamfToken) : Client :=
  mkClient Mock.server "fake-username" "mock-password-cool"
    (Mock.server +:+ "/JSSResource") tok
    (HttpClient.mk GoTime.Minute (Some transport)).

(** Identifiers are texts here; the endpoint of a computer is the list's,
    followed by [/id/] and the identifier, and there is none for the empty
    identifier. *)
Definition EndpointBuilder (endpoint context identifier : string)
  : string + string :=
  if String.eqb identifier "" then inr "no identifier given"
  else inl (endpoint +:+ "/" +:+ context +:+ "/id/" +:+ identifier).
End MockInventory.

(** * Properties *)

(** ** Strings *)

Lemma append_cons (a : ascii) (s t : string) :
  String a s +:+ t = String a (s +:+ t).
Proof. reflexivity. Qed.

Lemma append_nil_l (s : string) : "" +:+ s = s.
Proof. reflexivity. Qed.

Lemma append_assoc (s t u : string) : (s +:+ t) +:+ u = s +:+ t +:+ u.
Proof.
  induction s as [|a s IH]; [reflexivity|].
  rewrite !append_cons. by rewrite IH.
Qed.

Lemma HasPrefix_spec (s prefix : string) :
  Strings.HasPrefix s prefix = true <-> exists post, s = prefix +:+ post.
Proof.
  revert s. induction prefix as [|a prefix IH]; intros s; simpl.
  - split; [intros _; by exists s|done].
  - destruct s as [|b s].
    + split; [done|]. intros [post Hpost]. by rewrite append_cons in Hpost.
    + destruct (Ascii.eqb_spec a b) as [->|Hne].
      * rewrite IH. split; intros [post Hpost]; exists post.
        -- by rewrite append_cons, Hpost.
        -- rewrite append_cons in Hpost. by injection Hpost.
      * split; [done|]. intros [post Hpost].
        rewrite append_cons in Hpost. injection Hpost as ? ?. by destruct Hne.
Qed.

Lemma Contains_spec (s sub : string) :
  Strings.Contains s sub = true <-> Mentions sub s.
Proof.
  unfold Mentions. induction s as [|b s IH]; simpl.
  - rewrite orb_false_r, HasPrefix_spec. split.
    + intros [post Hpost]. by exists "", post.
    + intros [[|a pre] [post Hpost]]; [by exists post|].
      by rewrite append_cons in Hpost.
  - rewrite orb_true_iff, HasPrefix_spec, IH. split.
    + intros [[post Hpost]|(pre & post & Hpost)].
      * by exists "", post.
      * exists (String b pre), post. by rewrite append_cons, Hpost.
    + intros ([|a pre] & post & Hpost).
      * left. by exists post.
      * right. rewrite append_cons in Hpost. injection Hpost as _ Hpost.
        by exists pre, post.
Qed.

Lemma Mentions_here (sub post : string) : Mentions sub (sub +:+ post).
Proof. by exists "", post. Qed.

Lemma Mentions_append_r (sub pre s : string) :
  Mentions sub s -> Mentions sub (pre +:+ s).
Proof.
  intros (pre' & post & ->). exists (pre +:+ pre'), post.
  by rewrite append_assoc.
Qed.

Lemma Mentions_append_l (sub s post : string) :
  Mentions sub s -> Mentions sub (s +:+ post).
Proof.
  intros (pre & post' & ->). exists pre, (post' +:+ post).
  by rewrite !append_assoc.
Qed.

Lemma Mentions_end (sub pre : string) : Mentions sub (pre +:+ sub).
Proof.
  apply Mentions_append_r. exists "", "". revert sub.
  induction sub as [|a sub IH]; [done|].
  rewrite append_nil_l in *. by rewrite append_cons, <- IH.
Qed.

Create HintDb mentions.
#[export] Hint Resolve Mentions_here Mentions_end Mentions_append_r
  Mentions_append_l : mentions.

(** The first piece of a split is what precedes the first separator. *)
Lemma Split_first (t rest : string) (sep : ascii) :
  Strings.Contains t (String sep "") = false ->
  exists pieces, Strings.Split (t +:+ String sep rest) sep = t :: pieces.
Proof.
  induction t as [|c t IH]; intros Hfree.
  - rewrite append_nil_l. simpl. rewrite Ascii.eqb_refl. eauto.
  - rewrite append_cons. simpl in *.
    destruct (Ascii.eqb_spec sep c) as [->|Hne]; [done|].
    destruct (Ascii.eqb_spec c sep) as [->|_]; [done|].
    destruct IH as [pieces ->]; [|eauto].
    by destruct (Strings.Contains t (String sep "")).
Qed.

Lemma Split_whole (t : string) (sep : ascii) :
  Strings.Contains t (String sep "") = false ->
  Strings.Split t sep = [t].
Proof.
  induction t as [|c t IH]; intros Hfree; [done|].
  simpl in *.
  destruct (Ascii.eqb_spec sep c) as [->|Hne]; [done|].
  destruct (Ascii.eqb_spec c sep) as [->|_]; [done|].
  rewrite IH; [done|]. by destruct (Strings.Contains t (String sep "")).
Qed.

(** ** Time *)

(** Saturation of the duration never changes the verdict of the guard: the
    token counts as valid exactly when its expiration is more than five
    minutes after the present instant. *)
Lemma Until_more_than_five_minutes (present t : GoTime.Time) :
  (GoTime.Minute * 5 <? GoTime.Until present t) = true <->
  present + 5 * GoTime.Minute < t.
Proof.
  unfold GoTime.Until, GoTime.Sub, GoTime.minDuration, GoTime.maxDuration,
    GoTime.Minute, GoTime.Second, GoTime.Time, GoTime.Duration in *.
  cbv zeta. change (2 ^ 63) with 9223372036854775808.
  rewrite Z.ltb_lt.
  repeat case_match; rewrite ?Z.ltb_lt, ?Z.ltb_ge in *; lia.
Qed.

Lemma Until_at_most_five_minutes (present t : GoTime.Time) :
  t <= present + 5 * GoTime.Minute ->
  (GoTime.Minute * 5 <? GoTime.Until present t) = false.
Proof.
  intros Hle. apply not_true_is_false.
  rewrite Until_more_than_five_minutes. lia.
Qed.

(** ** The error of a rejected response *)

Lemma requestError_readable (res : Response.t) (text : string) :
  Io.ReadAll (Response.Body_ res) = (text, None) ->
  requestError res = Some ("request error: " +:+ text).
Proof. unfold requestError. by intros ->. Qed.

Lemma requestError_unreadable (res : Response.t) (text cause : string) :
  Io.ReadAll (Response.Body_ res) = (text, Some cause) ->
  requestError res =
    Some (("request error: " +:+ Response.Status res +:+
           ". unable to retrieve plain text response: " +:+ cause) +:+
          ": " +:+ cause).
Proof. unfold requestError. by intros ->. Qed.

Lemma requestError_is_error (res : Response.t) :
  exists msg, requestError res = Some msg /\
              Strings.HasPrefix msg "request error: " = true.
Proof.
  unfold requestError.
  destruct (Io.ReadAll (Response.Body_ res)) as [text [cause|]];
    unfold Errors.Wrapf, Errors.Errorf; cbv beta iota.
  - eexists; split; [done|]. rewrite append_assoc. apply HasPrefix_spec. eauto.
  - eexists; split; [done|]. apply HasPrefix_spec. eauto.
Qed.

Section pipeline_properties.
Context {P : Platform} {JT : JSONUnmarshal JamfToken}.

(** *** The stages of [requestToken] *)

Lemma requestToken_bad_endpoint (j : Client) (w : World) (cause : string) :
  Http.NewRequestWithContext "POST" (Domain j +:+ "/api/v1/auth/token") = inr cause ->
  requestToken j w =
    (j, w, Some ("error creating bearer token request" +:+ ": " +:+ cause)).
Proof. unfold requestToken. by intros ->. Qed.

Lemma requestToken_transport_error (j : Client) (w w' : World)
    (req : Request.t) (cause : string) :
  Http.NewRequestWithContext "POST" (Domain j +:+ "/api/v1/auth/token") = inl req ->
  Http.Do (api j) (Http.SetBasicAuth req (Username j) (Password j)) w = (w', inr cause) ->
  requestToken j w =
    (j, w', Some (("error making " +:+ Request.Method req +:+ " request to " +:+
                   Request.URL req) +:+ ": " +:+ cause)).
Proof. unfold requestToken. by intros -> ->. Qed.

Lemma requestToken_rejected (j : Client) (w w' : World)
    (req : Request.t) (res : Response.t) :
  Http.NewRequestWithContext "POST" (Domain j +:+ "/api/v1/auth/token") = inl req ->
  Http.Do (api j) (Http.SetBasicAuth req (Username j) (Password j)) w = (w', inl res) ->
  statusOK (Response.StatusCode res) = false ->
  requestToken j w = (j, w', requestError res).
Proof. unfold requestToken. by intros -> -> ->. Qed.

Lemma requestToken_decoded (j : Client) (w w' : World)
    (req : Request.t) (res : Response.t) (tok : JamfToken) (err : error) :
  Http.NewRequestWithContext "POST" (Domain j +:+ "/api/v1/auth/token") = inl req ->
  Http.Do (api j) (Http.SetBasicAuth req (Username j) (Password j)) w = (w', inl res) ->
  statusOK (Response.StatusCode res) = true ->
  json_Decode (Response.Body_ res) (Token j) = (tok, err) ->
  requestToken j w =
    (setToken j tok, w',
     Errors.Wrapf err
       "response was successful but error occured decoding JSON token response").
Proof.
  unfold requestToken. intros -> -> -> ->. by destruct err.
Qed.

(** Whatever happens, [requestToken] sends at most one request, and when it
    sends one it is the [POST] to the authentication endpoint. *)
Lemma requestToken_wire (j j' : Client) (w w' : World) (err : error) :
  requestToken j w = (j', w', err) ->
  now w' = now w /\
  (wire w' = wire w \/
   exists req, wire w' = req :: wire w /\
               Request.Method req = "POST" /\
               Request.URL req = Domain j +:+ "/api/v1/auth/token").
Proof.
  unfold requestToken, Http.NewRequestWithContext, Http.Do.
  destruct (url_Parse _); [intros [= <- <- _]; auto|].
  simpl. intros Hrun.
  assert (w' = mkWorld (now w)
            (Http.SetBasicAuth
               (Request.mk "POST" (Domain j +:+ "/api/v1/auth/token") ∅)
               (Username j) (Password j) :: wire w)) as ->.
  { repeat case_match; by simplify_eq. }
  split; [done|]. right. eauto.
Qed.

(** *** The stages of [checkTokenExpiration] *)

Lemma checkTokenExpiration_valid (j : Client) (w : World) (t : GoTime.Time) :
  JamfToken.Expires (Token j) <> "" ->
  time_Parse_RFC3339 (JamfToken.Expires (Token j)) = inl t ->
  now w + 5 * GoTime.Minute < t ->
  checkTokenExpiration j w = (j, w, None).
Proof.
  intros Hset Hparse Hfar. unfold checkTokenExpiration.
  apply String.eqb_neq in Hset. rewrite Hset, Hparse. cbv beta iota.
  apply Until_more_than_five_minutes in Hfar. by rewrite Hfar.
Qed.

Lemma checkTokenExpiration_unparsable (j : Client) (w : World) (cause : string) :
  JamfToken.Expires (Token j) <> "" ->
  time_Parse_RFC3339 (JamfToken.Expires (Token j)) = inr cause ->
  checkTokenExpiration j w =
    (j, w, Some (("error parsing the bearer token expiration date: " +:+
                  JamfToken.Expires (Token j)) +:+ ": " +:+ cause)).
Proof.
  intros Hset Hparse. unfold checkTokenExpiration.
  apply String.eqb_neq in Hset. by rewrite Hset, Hparse.
Qed.

Lemma checkTokenExpiration_acquires (j : Client) (w : World) :
  JamfToken.Expires (Token j) = "" \/
  (exists t, time_Parse_RFC3339 (JamfToken.Expires (Token j)) = inl t /\
             t <= now w + 5 * GoTime.Minute) ->
  checkTokenExpiration j w =
    let '(j', w', err) := requestToken j w in
    (j', w', Errors.Wrapf err "error requesting new bearer token").
Proof.
  intros Hstale. unfold checkTokenExpiration.
  assert ((let '(j', w', err) := requestToken j w in
           match err with
           | Some _ => (j', w', Errors.Wrapf err "error requesting new bearer token")
           | None => (j', w', None)
           end) =
          (let '(j', w', err) := requestToken j w in
           (j', w', Errors.Wrapf err "error requesting new bearer token")))
    as ->.
  { by destruct (requestToken j w) as [[j' w'] [cause|]]. }
  destruct (String.eqb_spec (JamfToken.Expires (Token j)) "") as [Hempty|Hset];
    [done|].
  destruct Hstale as [Hempty|(t & Hparse & Hnear)]; [done|].
  cbv beta iota. rewrite Hparse.
  by rewrite (Until_at_most_five_minutes _ _ Hnear).
Qed.

(** The guard has three outcomes: the store and the world are left alone
    (with or without an error), or the token is requested once. *)
Lemma checkTokenExpiration_cases (j : Client) (w : World) :
  (exists err, checkTokenExpiration j w = (j, w, err)) \/
  checkTokenExpiration j w =
    (let '(j', w', err) := requestToken j w in
     (j', w', Errors.Wrapf err "error requesting new bearer token")).
Proof.
  destruct (String.eqb_spec (JamfToken.Expires (Token j)) "") as [Hempty|Hset].
  { right. apply checkTokenExpiration_acquires. by left. }
  destruct (time_Parse_RFC3339 (JamfToken.Expires (Token j))) as [t|cause] eqn:Hparse.
  - destruct (Z.lt_ge_cases (now w + 5 * GoTime.Minute) t) as [Hfar|Hnear].
    + left. eexists. by eapply checkTokenExpiration_valid.
    + right. apply checkTokenExpiration_acquires. right. exists t. split; [done|lia].
  - left. eexists. by eapply checkTokenExpiration_unparsable.
Qed.
End pipeline_properties.

(** ** The stages of [makeAPIrequest] *)

Lemma eqb_either (t a b : string) :
  String.eqb t a || String.eqb t b = true <-> In t [a; b].
Proof.
  rewrite orb_true_iff, !String.eqb_eq. simpl.
  split; [intros [->| ->]; auto|intros [<-|[<-|[]]]; auto].
Qed.

Lemma eqb_any (t a b c : string) :
  String.eqb t a || String.eqb t b || String.eqb t c = true <-> In t [a; b; c].
Proof.
  rewrite !orb_true_iff, !String.eqb_eq. simpl.
  split; [intros [[->| ->]| ->]; auto|intros [<-|[<-|[<-|[]]]]; auto].
Qed.

Lemma markup_not_json (t : string) : In t markupTypes -> ~ In t jsonTypes.
Proof.
  unfold markupTypes, jsonTypes. simpl.
  intros [<-|[<-|[]]] [?|[?|[?|[]]]]; discriminate.
Qed.

Section dispatcher_properties.
Context {P : Platform} {JT : JSONUnmarshal JamfToken}.
Context {V : Type} {JV : JSONUnmarshal V} {XV : XMLUnmarshal V}.

Implicit Types (j : Client) (r : Request.t) (v : V) (w : World)
  (res : Response.t).

Lemma makeAPIrequest_guard_failed j j1 r v w w1 (cause : string) :
  checkTokenExpiration j w = (j1, w1, Some cause) ->
  makeAPIrequest j r v w =
    (j1, r, v, w1,
     Some ("error checking for bearer token expiration" +:+ ": " +:+ cause)).
Proof. unfold makeAPIrequest. by intros ->. Qed.

Lemma makeAPIrequest_transport_error j j1 r v w w1 w2 (cause : string) :
  checkTokenExpiration j w = (j1, w1, None) ->
  Http.Do (api j1) (setRequestHeaders j1 r) w1 = (w2, inr cause) ->
  makeAPIrequest j r v w =
    (j1, setRequestHeaders j1 r, v, w2,
     Some (("error making " +:+ Request.Method (setRequestHeaders j1 r) +:+
            " request to " +:+ Request.URL (setRequestHeaders j1 r)) +:+
           ": " +:+ cause)).
Proof.
  unfold makeAPIrequest. intros -> Hdo. cbv beta iota zeta. by rewrite Hdo.
Qed.

Lemma makeAPIrequest_rejected j j1 r v w w1 w2 res :
  checkTokenExpiration j w = (j1, w1, None) ->
  Http.Do (api j1) (setRequestHeaders j1 r) w1 = (w2, inl res) ->
  statusOK (Response.StatusCode res) = false ->
  makeAPIrequest j r v w =
    (j1, setRequestHeaders j1 r, v, w2, requestError res).
Proof.
  unfold makeAPIrequest. intros -> Hdo Hstatus. cbv beta iota zeta.
  by rewrite Hdo, Hstatus.
Qed.

Lemma makeAPIrequest_markup j j1 r v v' w w1 w2 res (err : error) :
  checkTokenExpiration j w = (j1, w1, None) ->
  Http.Do (api j1) (setRequestHeaders j1 r) w1 = (w2, inl res) ->
  statusOK (Response.StatusCode res) = true ->
  In (baseMediaType res) markupTypes ->
  xml_Decode (Response.Body_ res) v = (v', err) ->
  makeAPIrequest j r v w =
    (j1, setRequestHeaders j1 r, v', w2,
     Errors.Wrapf err
       ("response was successful but error occured decoding response body of type "
        +:+ baseMediaType res)).
Proof.
  unfold makeAPIrequest. intros -> Hdo Hstatus Htype Hdecode.
  cbv beta iota zeta. rewrite Hdo, Hstatus. cbv beta iota.
  apply eqb_either in Htype. rewrite Htype, Hdecode. by destruct err.
Qed.

Lemma makeAPIrequest_json j j1 r v v' w w1 w2 res (err : error) :
  checkTokenExpiration j w = (j1, w1, None) ->
  Http.Do (api j1) (setRequestHeaders j1 r) w1 = (w2, inl res) ->
  statusOK (Response.StatusCode res) = true ->
  In (baseMediaType res) jsonTypes ->
  json_Decode (Response.Body_ res) v = (v', err) ->
  makeAPIrequest j r v w =
    (j1, setRequestHeaders j1 r, v', w2,
     Errors.Wrapf err
       ("response was successful but error occured error decoding response body of type "
        +:+ baseMediaType res)).
Proof.
  unfold makeAPIrequest. intros -> Hdo Hstatus Htype Hdecode.
  cbv beta iota zeta. rewrite Hdo, Hstatus. cbv beta iota.
  assert (String.eqb (baseMediaType res) "text/xml"
          || String.eqb (baseMediaType res) "application/xml" = false) as ->.
  { apply not_true_is_false. rewrite eqb_either.
    intros Hmarkup. by apply (markup_not_json _ Hmarkup). }
  apply eqb_any in Htype. rewrite Htype, Hdecode. by destruct err.
Qed.

(** The [default] case of the switch wraps an [err] that is [nil] at that
    point, and wrapping [nil] gives [nil]. *)
Lemma makeAPIrequest_unexpected j j1 r v w w1 w2 res :
  checkTokenExpiration j w = (j1, w1, None) ->
  Http.Do (api j1) (setRequestHeaders j1 r) w1 = (w2, inl res) ->
  statusOK (Response.StatusCode res) = true ->
  ~ In (baseMediaType res) markupTypes ->
  ~ In (baseMediaType res) jsonTypes ->
  makeAPIrequest j r v w = (j1, setRequestHeaders j1 r, v, w2, None).
Proof.
  unfold makeAPIrequest. intros -> Hdo Hstatus Hmarkup Hjson.
  cbv beta iota zeta. rewrite Hdo, Hstatus. cbv beta iota.
  unfold markupTypes, jsonTypes in *.
  rewrite <- eqb_either in Hmarkup. rewrite <- eqb_any in Hjson.
  apply not_true_is_false in Hmarkup, Hjson.
  by rewrite Hmarkup, Hjson.
Qed.
End dispatcher_properties.

(** * The claims *)

Lemma statusOK_true (code : Z) :
  statusOK code = true <-> code = 200 \/ code = 201.
Proof. unfold statusOK. rewrite orb_true_iff, !Z.eqb_eq. tauto. Qed.

Lemma statusOK_false (code : Z) :
  statusOK code = false <-> code <> 200 /\ code <> 201.
Proof. unfold statusOK. rewrite orb_false_iff, !Z.eqb_neq. tauto. Qed.

(** ** Construction *)

(** C9.  [NewClient] fails with the configuration error, and returns no
    client, as soon as the domain, the username or the password is empty;
    with the three of them non-empty it returns a client whose endpoint is
    the domain followed by [/JSSResource], whose token store is empty and
    whose transport is the one supplied or, when none is, the default
    transport with a timeout of one minute.  [NewClient] has no access to
    the world: it sends nothing. *)
Theorem NewClient_construction
    (domain username password : string) (client : option HttpClient.t) :
  (domain = "" \/ username = "" \/ password = "" ->
   NewClient domain username password client = (None, Some configurationError)) /\
  (domain <> "" -> username <> "" -> password <> "" ->
   exists j,
     NewClient domain username password client = (Some j, None) /\
     Domain j = domain /\ Username j = username /\ Password j = password /\
     Endpoint j = domain +:+ "/JSSResource" /\
     Token j = JamfToken.mk "" "" /\
     api j = default defaultHTTPClient client /\
     (client = None ->
      HttpClient.Timeout (api j) = 60 * 1000000000 /\
      HttpClient.Transport (api j) = None)).
Proof.
  unfold NewClient. split.
  - intros Hempty.
    assert (String.eqb domain "" || String.eqb username "" || String.eqb password ""
            = true) as ->; [|done].
    rewrite !orb_true_iff, !String.eqb_eq. tauto.
  - intros Hd Hu Hp. apply String.eqb_neq in Hd, Hu, Hp. rewrite Hd, Hu, Hp.
    eexists. split; [done|]. simpl. split_and!; try done.
    by destruct client.
Qed.

Lemma NewClient_construction_witness :
  NewClient Mock.server "" "mock-password-cool" None =
    (None, Some configurationError) /\
  exists j,
    NewClient Mock.server "fake-username" "mock-password-cool" None = (Some j, None) /\
    Endpoint j = "http://127.0.0.1:8080/JSSResource" /\
    HttpClient.Timeout (api j) = 60000000000.
Proof.
  split.
  - apply (NewClient_construction Mock.server "" "mock-password-cool" None). auto.
  - destruct (proj2 (NewClient_construction Mock.server "fake-username"
                       "mock-password-cool" None))
      as (j & Hnew & _ & _ & _ & Hendpoint & _ & _ & Hdefault); [done..|].
    destruct Hdefault as [Htimeout _]; [done|].
    exists j. by rewrite Hnew, Hendpoint, Htimeout.
Defined.

(** ** Token acquisition and the expiration guard *)

Section token_claims.
Context {P : Platform} {JT : JSONUnmarshal JamfToken}.

(** C10.  When the transport fails, or the authentication endpoint answers
    with a status other than 200 and 201, [requestToken] returns an error
    and leaves the client, hence the token and its expiration, as it was.
    In every run the store is either untouched or holds what the JSON
    decoder made of it, and the decoder runs only on a response with
    status 200 or 201. *)
Theorem requestToken_failure_keeps_token
    (j j' : Client) (w w' : World) (err : error) :
  requestToken j w = (j', w', err) ->
  (forall req w1 outcome,
     Http.NewRequestWithContext "POST" (Domain j +:+ "/api/v1/auth/token") = inl req ->
     Http.Do (api j) (Http.SetBasicAuth req (Username j) (Password j)) w = (w1, outcome) ->
     (forall res, outcome = inl res ->
                  Response.StatusCode res <> 200 /\ Response.StatusCode res <> 201) ->
     err <> None /\
     JamfToken.Token (Token j') = JamfToken.Token (Token j) /\
     JamfToken.Expires (Token j') = JamfToken.Expires (Token j)) /\
  (Token j' = Token j \/
   exists req w1 res decodeErr,
     Http.NewRequestWithContext "POST" (Domain j +:+ "/api/v1/auth/token") = inl req /\
     Http.Do (api j) (Http.SetBasicAuth req (Username j) (Password j)) w = (w1, inl res) /\
     (Response.StatusCode res = 200 \/ Response.StatusCode res = 201) /\
     json_Decode (Response.Body_ res) (Token j) = (Token j', decodeErr)).
Proof.
  intros Hrun. split.
  - intros req w1 outcome Hreq Hdo Hfail.
    assert (exists msg, requestToken j w = (j, w1, Some msg)) as [msg Hfailed].
    { destruct outcome as [res|cause].
      - destruct (requestError_is_error res) as (msg & Hmsg & _).
        exists msg. rewrite <- Hmsg.
        eapply requestToken_rejected; [done..|].
        apply statusOK_false. by apply Hfail.
      - eexists. by eapply requestToken_transport_error. }
    rewrite Hfailed in Hrun. by injection Hrun as <- _ <-.
  - destruct (Http.NewRequestWithContext "POST" (Domain j +:+ "/api/v1/auth/token"))
      as [req|cause] eqn:Hreq.
    2: { rewrite (requestToken_bad_endpoint _ _ _ Hreq) in Hrun.
         injection Hrun as <- _ _. by left. }
    destruct (Http.Do (api j) (Http.SetBasicAuth req (Username j) (Password j)) w)
      as [w1 [res|cause]] eqn:Hdo.
    2: { rewrite (requestToken_transport_error _ _ _ _ _ Hreq Hdo) in Hrun.
         injection Hrun as <- _ _. by left. }
    destruct (statusOK (Response.StatusCode res)) eqn:Hstatus.
    2: { rewrite (requestToken_rejected _ _ _ _ _ Hreq Hdo Hstatus) in Hrun.
         injection Hrun as <- _ _. by left. }
    destruct (json_Decode (Response.Body_ res) (Token j)) as [tok decodeErr] eqn:Hdecode.
    rewrite (requestToken_decoded _ _ _ _ _ _ _ Hreq Hdo Hstatus Hdecode) in Hrun.
    injection Hrun as <- _ _. right. exists req, w1, res, decodeErr.
    apply statusOK_true in Hstatus. by rewrite Hdecode.
Qed.

(** C8.  When the authentication endpoint answers with status 200 or 201
    and the JSON decoder makes the token [T] with expiration [E] of the
    body, [requestToken] returns [nil] and the store holds [T] and [E].
    When the decoder fails instead, the error is the decoder's, announced as
    a decoding failure after a successful response: its text starts unlike
    that of a transport failure, of a rejected request or of a request that
    could not be built. *)
Theorem requestToken_stores_decoded_token
    (j : Client) (w w' : World) (req : Request.t) (res : Response.t) :
  Http.NewRequestWithContext "POST" (Domain j +:+ "/api/v1/auth/token") = inl req ->
  Http.Do (api j) (Http.SetBasicAuth req (Username j) (Password j)) w = (w', inl res) ->
  Response.StatusCode res = 200 \/ Response.StatusCode res = 201 ->
  (forall T E,
     json_Decode (Response.Body_ res) (Token j) = (JamfToken.mk T E, None) ->
     exists j',
       requestToken j w = (j', w', None) /\
       JamfToken.Token (Token j') = T /\ JamfToken.Expires (Token j') = E) /\
  (forall tok cause,
     json_Decode (Response.Body_ res) (Token j) = (tok, Some cause) ->
     exists j' msg,
       requestToken j w = (j', w', Some msg) /\
       msg = "response was successful but error occured decoding JSON token response: "
             +:+ cause /\
       Strings.HasPrefix msg "error making " = false /\
       Strings.HasPrefix msg "request error: " = false /\
       Strings.HasPrefix msg "error creating bearer token request" = false).
Proof.
  intros Hreq Hdo Hstatus. apply statusOK_true in Hstatus. split.
  - intros T E Hdecode.
    rewrite (requestToken_decoded _ _ _ _ _ _ _ Hreq Hdo Hstatus Hdecode).
    by eexists.
  - intros tok cause Hdecode.
    rewrite (requestToken_decoded _ _ _ _ _ _ _ Hreq Hdo Hstatus Hdecode).
    by eexists _, _.
Qed.

(** C4.  A stored token whose expiration parses and lies more than five
    minutes ahead makes [checkTokenExpiration] return [nil] with the client
    and the world untouched: nothing is sent.  A store without expiration,
    or with one that is five minutes ahead or less, makes it run
    [requestToken] once and return its outcome, with the error wrapped.
    That one run does the following.  When the address of the
    authentication endpoint is not a URL, nothing is sent and the client is
    left alone.  Otherwise exactly one request is sent, the [POST] to the
    authentication endpoint, whatever the answer: a transport error or a
    status other than 200 and 201 leaves the store alone and is the error
    returned; on status 200 or 201 the store is overwritten with what the
    JSON decoder made of the body, and the error is the decoder's, so that
    [nil] is returned exactly when the decoder succeeded. *)
Theorem checkTokenExpiration_renews_when_due (j : Client) (w : World) :
  (forall t,
     JamfToken.Expires (Token j) <> "" ->
     time_Parse_RFC3339 (JamfToken.Expires (Token j)) = inl t ->
     now w + 5 * GoTime.Minute < t ->
     checkTokenExpiration j w = (j, w, None)) /\
  (JamfToken.Expires (Token j) = "" \/
   (exists t, time_Parse_RFC3339 (JamfToken.Expires (Token j)) = inl t /\
              t <= now w + 5 * GoTime.Minute) ->
   exists j' w' err,
     requestToken j w = (j', w', err) /\
     checkTokenExpiration j w =
       (j', w', Errors.Wrapf err "error requesting new bearer token") /\
     match url_Parse (Domain j +:+ "/api/v1/auth/token") with
     | Some cause =>
         j' = j /\ w' = w /\
         err = Some ("error creating bearer token request: " +:+ cause)
     | None =>
         now w' = now w /\
         wire w' = authRequest j :: wire w /\
         Request.Method (authRequest j) = "POST" /\
         Request.URL (authRequest j) = Domain j +:+ "/api/v1/auth/token" /\
         match default DefaultTransport (HttpClient.Transport (api j)) (wire w)
                 (authRequest j) with
         | inr cause =>
             j' = j /\
             err = Some ("error making POST request to " +:+
                         (Domain j +:+ "/api/v1/auth/token") +:+ ": " +:+ cause)
         | inl res =>
             if statusOK (Response.StatusCode res)
             then
               Token j' = (json_Decode (Response.Body_ res) (Token j)).1 /\
               err = Errors.Wrapf (json_Decode (Response.Body_ res) (Token j)).2
                       "response was successful but error occured decoding JSON token response"
             else j' = j /\ err = requestError res
         end
     end).
Proof.
  split; [intros t; apply checkTokenExpiration_valid|].
  intros Hstale. rewrite (checkTokenExpiration_acquires _ _ Hstale).
  destruct (url_Parse (Domain j +:+ "/api/v1/auth/token")) as [cause|] eqn:Hurl.
  { exists j, w, (Some ("error creating bearer token request: " +:+ cause)).
    assert (requestToken j w =
            (j, w, Some ("error creating bearer token request: " +:+ cause))) as ->;
      [|done].
    apply requestToken_bad_endpoint. unfold Http.NewRequestWithContext.
    by rewrite Hurl. }
  assert (Http.NewRequestWithContext "POST" (Domain j +:+ "/api/v1/auth/token") =
          inl (Request.mk "POST" (Domain j +:+ "/api/v1/auth/token") ∅)) as Hreq.
  { unfold Http.NewRequestWithContext. by rewrite Hurl. }
  assert (Http.Do (api j) (authRequest j) w =
          (mkWorld (now w) (authRequest j :: wire w),
           default DefaultTransport (HttpClient.Transport (api j)) (wire w)
             (authRequest j))) as Hdo by reflexivity.
  destruct (default DefaultTransport (HttpClient.Transport (api j)) (wire w)
              (authRequest j)) as [res|cause].
  2: { rewrite (requestToken_transport_error _ _ _ _ _ Hreq Hdo).
       eexists _, _, _. split; [done|]. split; [done|].
       by split_and!. }
  destruct (statusOK (Response.StatusCode res)) eqn:Hstatus.
  2: { rewrite (requestToken_rejected _ _ _ _ _ Hreq Hdo Hstatus).
       by eexists _, _, _. }
  destruct (json_Decode (Response.Body_ res) (Token j)) as [tok err] eqn:Hdecode.
  rewrite (requestToken_decoded _ _ _ _ _ _ _ Hreq Hdo Hstatus Hdecode).
  by eexists _, _, _.
Qed.

(** C5.  A stored expiration that is not empty and does not parse as
    RFC3339 makes [checkTokenExpiration] return an error that quotes the
    timestamp and the parser's complaint; the client and the world are
    untouched, so no token was requested. *)
Theorem checkTokenExpiration_rejects_bad_timestamp
    (j : Client) (w : World) (cause : string) :
  JamfToken.Expires (Token j) <> "" ->
  time_Parse_RFC3339 (JamfToken.Expires (Token j)) = inr cause ->
  exists msg,
    checkTokenExpiration j w = (j, w, Some msg) /\
    msg = ("error parsing the bearer token expiration date: " +:+
           JamfToken.Expires (Token j)) +:+ ": " +:+ cause /\
    Mentions (JamfToken.Expires (Token j)) msg /\
    Mentions cause msg.
Proof.
  intros Hset Hparse. eexists. split; [|split; [done|]].
  - by apply checkTokenExpiration_unparsable.
  - split; eauto 6 with mentions.
Qed.
End token_claims.

(** ** The request dispatcher and the format decoder *)

Lemma Header_Get_Set (h : gmap string (list string)) (key value : string) :
  Header.Get (Header.Set_ h key value) key = value.
Proof. unfold Header.Get, Header.Set_. by rewrite lookup_insert_eq. Qed.

Lemma Header_Get_Set_ne (h : gmap string (list string)) (key key' value : string) :
  key <> key' ->
  Header.Get (Header.Set_ h key value) key' = Header.Get h key'.
Proof.
  intros Hne. unfold Header.Get, Header.Set_. by rewrite lookup_insert_ne.
Qed.

(** The base media type is the declared content type up to its first [;]. *)
Lemma baseMediaType_strips_parameters (res : Response.t) (t params : string) :
  Strings.Contains t ";" = false ->
  Header.Get (Response.Header res) "Content-Type" = t +:+ ";" +:+ params ->
  baseMediaType res = t.
Proof.
  intros Hfree Hdeclared. unfold baseMediaType.
  rewrite Hdeclared, append_cons, append_nil_l.
  by destruct (Split_first t params ";"%char Hfree) as [pieces ->].
Qed.

Lemma baseMediaType_bare (res : Response.t) :
  Strings.Contains (Header.Get (Response.Header res) "Content-Type") ";" = false ->
  baseMediaType res = Header.Get (Response.Header res) "Content-Type".
Proof.
  intros Hfree. unfold baseMediaType. by rewrite (Split_whole _ _ Hfree).
Qed.

Section dispatcher_claims.
Context {P : Platform} {JT : JSONUnmarshal JamfToken}.
Context {V : Type} {JV : JSONUnmarshal V} {XV : XMLUnmarshal V}.

Implicit Types (j : Client) (r : Request.t) (v : V) (w : World)
  (res : Response.t).

(** Once the guard has passed, the request handed to the transport, and
    handed back to the caller, is the decorated one. *)
Lemma makeAPIrequest_after_guard j j1 r v w w1 :
  checkTokenExpiration j w = (j1, w1, None) ->
  exists v' err,
    makeAPIrequest j r v w =
      (j1, setRequestHeaders j1 r, v',
       mkWorld (now w1) (setRequestHeaders j1 r :: wire w1), err).
Proof.
  unfold makeAPIrequest, Http.Do. intros ->. cbv beta iota zeta.
  repeat case_match; eauto.
Qed.

(** C7.  When the expiration guard passes, the request that goes on the
    wire carries an [Accept] header naming JSON (at the default quality of
    1.0) and XML at quality 0.9, the cache-prevention [Cache-Control]
    directives, the [Strict-Transport-Security] hint and an
    [Authorization] header that is [Bearer ] followed by the token the
    store holds after the guard; method and address are the caller's. *)
Theorem makeAPIrequest_decorates_request j j1 r v w w1 :
  checkTokenExpiration j w = (j1, w1, None) ->
  exists r' v' w' err,
    makeAPIrequest j r v w = (j1, r', v', w', err) /\
    wire w' = r' :: wire w1 /\
    Request.Method r' = Request.Method r /\
    Request.URL r' = Request.URL r /\
    Header.Get (Request.Header r') "Accept" =
      "application/json, application/xml;q=0.9" /\
    Header.Get (Request.Header r') "Cache-Control" =
      "no-store, no-cache, must-revalidate, max-age=0, post-check=0, pre-check=0" /\
    Header.Get (Request.Header r') "Strict-Transport-Security" =
      "max-age=31536000 ; includeSubDomains" /\
    Header.Get (Request.Header r') "Authorization" =
      "Bearer " +:+ JamfToken.Token (Token j1).
Proof.
  intros Hguard.
  destruct (makeAPIrequest_after_guard j j1 r v w w1 Hguard) as (v' & err & ->).
  eexists _, v', _, err. split; [done|]. split; [done|].
  unfold setRequestHeaders, Request.SetHeader. simpl.
  split_and!; try done.
  - by rewrite Header_Get_Set_ne, Header_Get_Set_ne, Header_Get_Set_ne, Header_Get_Set.
  - by rewrite Header_Get_Set_ne, Header_Get_Set_ne, Header_Get_Set.
  - by rewrite Header_Get_Set_ne, Header_Get_Set.
  - by rewrite Header_Get_Set.
Qed.

(** C6.  For a response with status 200 or 201 the decoder is chosen by the
    base media type, the declared content type with its parameters
    stripped: [text/xml] and [application/xml] run the XML decoder on the
    container, [text/json], [application/json] and [text/plain] run the
    JSON decoder; the container is left as the chosen decoder left it, and a
    decoder's error comes back wrapped in a message that names the media
    type. *)
Theorem makeAPIrequest_dispatches_on_media_type j j1 r v w w1 w2 res :
  checkTokenExpiration j w = (j1, w1, None) ->
  Http.Do (api j1) (setRequestHeaders j1 r) w1 = (w2, inl res) ->
  Response.StatusCode res = 200 \/ Response.StatusCode res = 201 ->
  (forall t params,
     Strings.Contains t ";" = false ->
     Header.Get (Response.Header res) "Content-Type" = t +:+ ";" +:+ params \/
     Header.Get (Response.Header res) "Content-Type" = t ->
     baseMediaType res = t) /\
  (In (baseMediaType res) markupTypes ->
   exists v' err,
     xml_Decode (Response.Body_ res) v = (v', err) /\
     makeAPIrequest j r v w =
       (j1, setRequestHeaders j1 r, v', w2,
        Errors.Wrapf err
          ("response was successful but error occured decoding response body of type "
           +:+ baseMediaType res)) /\
     (forall cause, err = Some cause ->
      exists msg, makeAPIrequest j r v w = (j1, setRequestHeaders j1 r, v', w2, Some msg) /\
                  Mentions (baseMediaType res) msg /\ Mentions cause msg)) /\
  (In (baseMediaType res) jsonTypes ->
   exists v' err,
     json_Decode (Response.Body_ res) v = (v', err) /\
     makeAPIrequest j r v w =
       (j1, setRequestHeaders j1 r, v', w2,
        Errors.Wrapf err
          ("response was successful but error occured error decoding response body of type "
           +:+ baseMediaType res)) /\
     (forall cause, err = Some cause ->
      exists msg, makeAPIrequest j r v w = (j1, setRequestHeaders j1 r, v', w2, Some msg) /\
                  Mentions (baseMediaType res) msg /\ Mentions cause msg)).
Proof.
  intros Hguard Hdo Hstatus. apply statusOK_true in Hstatus. split_and!.
  - intros t params Hfree [Hdeclared| <-].
    + by eapply baseMediaType_strips_parameters.
    + by apply baseMediaType_bare.
  - intros Htype.
    destruct (xml_Decode (Response.Body_ res) v) as [v' err] eqn:Hdecode.
    exists v', err. split; [done|].
    rewrite (makeAPIrequest_markup _ _ _ _ _ _ _ _ _ _ Hguard Hdo Hstatus Htype Hdecode).
    split; [done|]. intros cause ->. eexists. split; [done|].
    split; eauto 6 with mentions.
  - intros Htype.
    destruct (json_Decode (Response.Body_ res) v) as [v' err] eqn:Hdecode.
    exists v', err. split; [done|].
    rewrite (makeAPIrequest_json _ _ _ _ _ _ _ _ _ _ Hguard Hdo Hstatus Htype Hdecode).
    split; [done|]. intros cause ->. eexists. split; [done|].
    split; eauto 6 with mentions.
Qed.
End dispatcher_claims.

Section failure_claims.
Context {P : Platform} {JT : JSONUnmarshal JamfToken}.
Context {V : Type} {JV : JSONUnmarshal V} {XV : XMLUnmarshal V}.

Implicit Types (j : Client) (r : Request.t) (v : V) (w : World)
  (res : Response.t).

(** C2, as the code has it.  A response with a status other than 200 and
    201 makes [requestToken] and [makeAPIrequest] fail with the same error:
    when the body can be read, its text is [request error: ] followed by
    the body as plain text, and nothing else; when reading the body fails,
    its text names the response status and the failure to read. *)
Theorem rejected_response_error res :
  Response.StatusCode res <> 200 ->
  Response.StatusCode res <> 201 ->
  (forall j w w' req,
     Http.NewRequestWithContext "POST" (Domain j +:+ "/api/v1/auth/token") = inl req ->
     Http.Do (api j) (Http.SetBasicAuth req (Username j) (Password j)) w = (w', inl res) ->
     requestToken j w = (j, w', requestError res)) /\
  (forall j j1 r v w w1 w2,
     checkTokenExpiration j w = (j1, w1, None) ->
     Http.Do (api j1) (setRequestHeaders j1 r) w1 = (w2, inl res) ->
     makeAPIrequest j r v w =
       (j1, setRequestHeaders j1 r, v, w2, requestError res)) /\
  (forall text,
     Io.ReadAll (Response.Body_ res) = (text, None) ->
     requestError res = Some ("request error: " +:+ text)) /\
  (forall text cause,
     Io.ReadAll (Response.Body_ res) = (text, Some cause) ->
     exists msg,
       requestError res = Some msg /\
       Mentions (Response.Status res) msg /\
       Mentions "unable to retrieve plain text response" msg /\
       Mentions cause msg).
Proof.
  intros H200 H201.
  assert (statusOK (Response.StatusCode res) = false) as Hstatus
    by by apply statusOK_false.
  split_and!.
  - intros j w w' req Hreq Hdo. by eapply requestToken_rejected.
  - intros j j1 r v w w1 w2 Hguard Hdo. by eapply makeAPIrequest_rejected.
  - apply requestError_readable.
  - intros text cause Hread.
    rewrite (requestError_unreadable _ _ _ Hread). eexists. split; [done|].
    split_and!; [eauto 8 with mentions| |eauto 8 with mentions].
    apply Mentions_append_l. do 2 apply Mentions_append_r.
    by exists ". ", (": " +:+ cause).
Qed.

(** C3, as the code has it.  When [makeAPIrequest] returns an error because
    the guard failed, the transport failed or the status was neither 200
    nor 201, the result container is as the caller passed it.  Any other
    error is that of the decoder the media type selected, and the container
    is then as that decoder left it: the decoder writes into the caller's
    container, and nothing restores it. *)
Theorem makeAPIrequest_error_frame j j' r r' v v' w w' (msg : string) :
  makeAPIrequest j r v w = (j', r', v', w', Some msg) ->
  (forall j1 w1 cause,
     checkTokenExpiration j w = (j1, w1, Some cause) -> v' = v) /\
  (forall j1 w1 w2 cause,
     checkTokenExpiration j w = (j1, w1, None) ->
     Http.Do (api j1) (setRequestHeaders j1 r) w1 = (w2, inr cause) ->
     v' = v) /\
  (forall j1 w1 w2 res,
     checkTokenExpiration j w = (j1, w1, None) ->
     Http.Do (api j1) (setRequestHeaders j1 r) w1 = (w2, inl res) ->
     Response.StatusCode res <> 200 /\ Response.StatusCode res <> 201 ->
     v' = v) /\
  (v' = v \/
   exists j1 w1 w2 res cause,
     checkTokenExpiration j w = (j1, w1, None) /\
     Http.Do (api j1) (setRequestHeaders j1 r) w1 = (w2, inl res) /\
     (Response.StatusCode res = 200 \/ Response.StatusCode res = 201) /\
     (In (baseMediaType res) markupTypes /\
      xml_Decode (Response.Body_ res) v = (v', Some cause) \/
      In (baseMediaType res) jsonTypes /\
      json_Decode (Response.Body_ res) v = (v', Some cause))).
Proof.
  intros Hrun. split_and!.
  - intros j1 w1 cause Hguard.
    rewrite (makeAPIrequest_guard_failed _ _ _ _ _ _ _ Hguard) in Hrun.
    by injection Hrun as _ _ <- _ _.
  - intros j1 w1 w2 cause Hguard Hdo.
    rewrite (makeAPIrequest_transport_error _ _ _ _ _ _ _ _ Hguard Hdo) in Hrun.
    by injection Hrun as _ _ <- _ _.
  - intros j1 w1 w2 res Hguard Hdo Hstatus. apply statusOK_false in Hstatus.
    rewrite (makeAPIrequest_rejected _ _ _ _ _ _ _ _ Hguard Hdo Hstatus) in Hrun.
    by injection Hrun as _ _ <- _ _.
  - destruct (checkTokenExpiration j w) as [[j1 w1] [cause|]] eqn:Hguard.
    { rewrite (makeAPIrequest_guard_failed _ _ _ _ _ _ _ Hguard) in Hrun.
      injection Hrun as _ _ <- _ _. by left. }
    destruct (Http.Do (api j1) (setRequestHeaders j1 r) w1)
      as [w2 [res|cause]] eqn:Hdo.
    2: { rewrite (makeAPIrequest_transport_error _ _ _ _ _ _ _ _ Hguard Hdo) in Hrun.
         injection Hrun as _ _ <- _ _. by left. }
    destruct (statusOK (Response.StatusCode res)) eqn:Hstatus.
    2: { rewrite (makeAPIrequest_rejected _ _ _ _ _ _ _ _ Hguard Hdo Hstatus) in Hrun.
         injection Hrun as _ _ <- _ _. by left. }
    destruct (in_dec String.string_dec (baseMediaType res) markupTypes) as [Hxml|Hxml].
    { destruct (xml_Decode (Response.Body_ res) v) as [v1 err] eqn:Hdecode.
      rewrite (makeAPIrequest_markup _ _ _ _ _ _ _ _ _ _
                 Hguard Hdo Hstatus Hxml Hdecode) in Hrun.
      destruct err as [cause|]; [|done].
      injection Hrun as _ _ <- _ _. right. exists j1, w1, w2, res, cause.
      apply statusOK_true in Hstatus. split_and!; auto. }
    destruct (in_dec String.string_dec (baseMediaType res) jsonTypes) as [Hjson|Hjson].
    { destruct (json_Decode (Response.Body_ res) v) as [v1 err] eqn:Hdecode.
      rewrite (makeAPIrequest_json _ _ _ _ _ _ _ _ _ _
                 Hguard Hdo Hstatus Hjson Hdecode) in Hrun.
      destruct err as [cause|]; [|done].
      injection Hrun as _ _ <- _ _. right. exists j1, w1, w2, res, cause.
      apply statusOK_true in Hstatus. split_and!; auto. }
    by rewrite (makeAPIrequest_unexpected _ _ _ _ _ _ _ _
                  Hguard Hdo Hstatus Hxml Hjson) in Hrun.
Qed.
End failure_claims.

(** * The claims on the test double *)

#[local] Existing Instances Mock.platform Mock.tokenJSON Mock.responseJSON
  Mock.responseXML Mock.deviceJSON Mock.deviceXML.

(** C1.  The test server answers [/JSSResource/mock/html] with status 200
    and the content type [text/html; charset=utf-8].  The base media type,
    [text/html], is none of the five the switch knows, yet [makeAPIrequest]
    returns [nil]: the [default] case wraps the [nil] error left by the
    transport.  The container is as the caller passed it. *)
Theorem makeAPIrequest_unexpected_media_type_returns_nil :
  Http.Do (api Mock.signedIn)
    (setRequestHeaders Mock.signedIn (Mock.get (Mock.server +:+ "/JSSResource/mock/html")))
    Mock.morning =
    (mkWorld (now Mock.morning)
       [setRequestHeaders Mock.signedIn (Mock.get (Mock.server +:+ "/JSSResource/mock/html"))],
     inl Mock.maintenance) /\
  Response.StatusCode Mock.maintenance = 200 /\
  baseMediaType Mock.maintenance = "text/html" /\
  makeAPIrequest Mock.signedIn
    (Mock.get (Mock.server +:+ "/JSSResource/mock/html"))
    (Mock.mkMockResponse "") Mock.morning =
    (Mock.signedIn,
     setRequestHeaders Mock.signedIn (Mock.get (Mock.server +:+ "/JSSResource/mock/html")),
     Mock.mkMockResponse "",
     mkWorld (now Mock.morning)
       [setRequestHeaders Mock.signedIn (Mock.get (Mock.server +:+ "/JSSResource/mock/html"))],
     None).
Proof.
  assert (checkTokenExpiration Mock.signedIn Mock.morning =
          (Mock.signedIn, Mock.morning, None)) as Hguard by reflexivity.
  split_and!; [reflexivity..|].
  apply (makeAPIrequest_unexpected _ _ _ _ _ _ _ Mock.maintenance Hguard);
    [reflexivity..| |].
  - unfold markupTypes. simpl. intros [?|[?|[]]]; discriminate.
  - unfold jsonTypes. simpl. intros [?|[?|[?|[]]]]; discriminate.
Qed.

(** C2, against the claim as stated.  The test server rejects an address it
    does not know with status 500 and a plain-text body.  The error of
    [requestToken], and that of [makeAPIrequest], carries the body and no
    trace of the status. *)
Lemma rejected_response_error_omits_status :
  Response.Status (Mock.rejected (Mock.server +:+ "/JSSResource/nothing")) =
    "500 Internal Server Error" /\
  (exists msg,
     requestToken Mock.astray Mock.morning =
       (Mock.astray,
        mkWorld (now Mock.morning) [Mock.tokenRequest Mock.astray],
        Some msg) /\
     Mentions "bad API call to" msg /\
     ~ Mentions "500 Internal Server Error" msg /\
     ~ Mentions "500" msg) /\
  (exists msg,
     makeAPIrequest Mock.signedIn
       (Mock.get (Mock.server +:+ "/JSSResource/nothing"))
       (Mock.mkMockResponse "") Mock.morning =
       (Mock.signedIn,
        setRequestHeaders Mock.signedIn (Mock.get (Mock.server +:+ "/JSSResource/nothing")),
        Mock.mkMockResponse "",
        mkWorld (now Mock.morning)
          [setRequestHeaders Mock.signedIn (Mock.get (Mock.server +:+ "/JSSResource/nothing"))],
        Some msg) /\
     Mentions "bad API call to" msg /\
     ~ Mentions "500 Internal Server Error" msg /\
     ~ Mentions "500" msg).
Proof.
  split; [reflexivity|]. split.
  - exists "request error: bad API call to http://127.0.0.1:8080/elsewhere/api/v1/auth/token".
    split; [reflexivity|]. rewrite <- !Contains_spec. by vm_compute.
  - exists "request error: bad API call to http://127.0.0.1:8080/JSSResource/nothing".
    split; [reflexivity|]. rewrite <- !Contains_spec. by vm_compute.
Qed.

(** C3, against the claim as stated.  The test server answers
    [/JSSResource/computers/id/7] with a JSON object whose serial number is a
    number, where the container wants a string.  [makeAPIrequest] returns
    the decoder's error, and the container, empty before the call, holds the
    name the decoder had already assigned. *)
Lemma decode_failure_changes_container :
  exists msg,
    makeAPIrequest Mock.signedIn
      (Mock.get (Mock.server +:+ "/JSSResource/computers/id/7"))
      (Mock.mkDevice "" "") Mock.morning =
      (Mock.signedIn,
       setRequestHeaders Mock.signedIn (Mock.get (Mock.server +:+ "/JSSResource/computers/id/7")),
       Mock.mkDevice "lab-mac-07" "",
       mkWorld (now Mock.morning)
         [setRequestHeaders Mock.signedIn
            (Mock.get (Mock.server +:+ "/JSSResource/computers/id/7"))],
       Some msg) /\
    Mock.mkDevice "lab-mac-07" "" <> Mock.mkDevice "" "".
Proof.
  eexists. split; [reflexivity|discriminate].
Qed.

(** ** The theorems at work *)

Lemma rejected_response_error_witness :
  requestToken Mock.astray Mock.morning =
    (Mock.astray, Mock.sent Mock.morning (Mock.tokenRequest Mock.astray),
     Some "request error: bad API call to http://127.0.0.1:8080/elsewhere/api/v1/auth/token").
Proof.
  destruct (rejected_response_error (V := Mock.MockResponse)
              (Mock.rejected (Mock.server +:+ "/elsewhere/api/v1/auth/token")))
    as (Htoken & _ & Hreadable & _); [by vm_compute..|].
  rewrite (Htoken Mock.astray Mock.morning _ (Mock.newTokenRequest Mock.astray)
             eq_refl eq_refl).
  by rewrite (Hreadable _ eq_refl).
Defined.

Lemma makeAPIrequest_error_frame_witness :
  exists j' r' v' w' msg,
    makeAPIrequest Mock.signedIn (Mock.get (Mock.server +:+ "/JSSResource/nothing"))
      (Mock.mkMockResponse "seed") Mock.morning = (j', r', v', w', Some msg) /\
    v' = Mock.mkMockResponse "seed".
Proof.
  destruct (makeAPIrequest Mock.signedIn
              (Mock.get (Mock.server +:+ "/JSSResource/nothing"))
              (Mock.mkMockResponse "seed") Mock.morning)
    as [[[[j' r'] v'] w'] [msg|]] eqn:Hrun; [|by vm_compute in Hrun].
  exists j', r', v', w', msg. split; [done|].
  destruct (makeAPIrequest_error_frame _ _ _ _ _ _ _ _ _ Hrun)
    as (_ & _ & Hrejected & _).
  apply (Hrejected Mock.signedIn Mock.morning
           (Mock.sent Mock.morning
              (setRequestHeaders Mock.signedIn
                 (Mock.get (Mock.server +:+ "/JSSResource/nothing"))))
           (Mock.rejected (Mock.server +:+ "/JSSResource/nothing")));
    by vm_compute.
Defined.

Lemma checkTokenExpiration_renews_when_due_witness :
  checkTokenExpiration Mock.signedIn Mock.morning =
    (Mock.signedIn, Mock.morning, None) /\
  exists j' w',
    checkTokenExpiration (Mock.client (JamfToken.mk "old" "2026-11-01T00:00:00Z"))
      Mock.lastCall = (j', w', None) /\
    wire w' = [Mock.tokenRequest Mock.signedIn] /\
    Token j' = Mock.testToken.
Proof.
  split.
  - apply (proj1 (checkTokenExpiration_renews_when_due Mock.signedIn Mock.morning)
             Mock.expiry); by vm_compute.
  - destruct (proj2 (checkTokenExpiration_renews_when_due
                       (Mock.client (JamfToken.mk "old" "2026-11-01T00:00:00Z"))
                       Mock.lastCall))
      as (j' & w' & err & _ & Hguard & Hrun).
    + right. exists Mock.expiry. by vm_compute.
    + vm_compute in Hrun. destruct Hrun as (_ & Hwire & _ & _ & Htoken & ->).
      exists j', w'. split; [exact Hguard|]. split; [exact Hwire|exact Htoken].
Defined.

Lemma checkTokenExpiration_rejects_bad_timestamp_witness :
  exists msg,
    checkTokenExpiration Mock.confused Mock.morning =
      (Mock.confused, Mock.morning, Some msg) /\
    Mentions "tomorrow" msg.
Proof.
  destruct (checkTokenExpiration_rejects_bad_timestamp Mock.confused Mock.morning
              "parsing time tomorrow as 2006-01-02T15:04:05Z07:00: cannot parse")
    as (msg & Hguard & _ & Hquoted & _); [by vm_compute..|].
  by exists msg.
Defined.

Lemma requestToken_stores_decoded_token_witness :
  exists j',
    requestToken Mock.fresh Mock.morning =
      (j', Mock.sent Mock.morning (Mock.tokenRequest Mock.fresh), None) /\
    JamfToken.Token (Token j') = "abcdefghijklmnopqrstuvwxyz" /\
    JamfToken.Expires (Token j') = "2026-11-01T00:00:00Z".
Proof.
  apply (requestToken_stores_decoded_token Mock.fresh Mock.morning _
           (Mock.newTokenRequest Mock.fresh)
           (Response.mk 200 "200 OK" (Mock.contentType "application/json")
              (mkBody Mock.tokenBody None))); by vm_compute; auto.
Defined.

Lemma requestToken_failure_keeps_token_witness :
  exists j' w' err,
    requestToken Mock.offline Mock.morning = (j', w', err) /\
    err <> None /\
    JamfToken.Token (Token j') = JamfToken.Token (Token Mock.offline) /\
    JamfToken.Expires (Token j') = JamfToken.Expires (Token Mock.offline).
Proof.
  destruct (requestToken Mock.offline Mock.morning) as [[j' w'] err] eqn:Hrun.
  exists j', w', err. split; [done|].
  apply (proj1 (requestToken_failure_keeps_token _ _ _ _ _ Hrun)
           (Mock.newTokenRequest Mock.offline)
           (Mock.sent Mock.morning (Mock.tokenRequest Mock.offline))
           (inr "connection refused")); [by vm_compute..|].
  by intros res [=].
Defined.

Lemma makeAPIrequest_dispatches_on_media_type_witness :
  exists r' w',
    makeAPIrequest Mock.signedIn (Mock.get (Mock.server +:+ "/JSSResource/mock/xml"))
      (Mock.mkMockResponse "") Mock.morning =
      (Mock.signedIn, r', Mock.mkMockResponse "OK", w', None).
Proof.
  destruct (makeAPIrequest_dispatches_on_media_type
              Mock.signedIn Mock.signedIn
              (Mock.get (Mock.server +:+ "/JSSResource/mock/xml"))
              (Mock.mkMockResponse "") Mock.morning Mock.morning
              (Mock.sent Mock.morning
                 (setRequestHeaders Mock.signedIn
                    (Mock.get (Mock.server +:+ "/JSSResource/mock/xml"))))
              (Response.mk 200 "200 OK" (Mock.contentType "text/xml;charset=UTF-8")
                 (mkBody "<MockResponse><Status>OK</Status></MockResponse>" None)))
    as (_ & Hmarkup & _); [by vm_compute; auto..|].
  destruct Hmarkup as (v' & err & Hdecode & Hrun & _); [by vm_compute; auto|].
  vm_compute in Hdecode. injection Hdecode as <- <-.
  eexists _, _. exact Hrun.
Defined.

Lemma makeAPIrequest_decorates_request_witness :
  exists r' v' w' err,
    makeAPIrequest Mock.fresh (Mock.get (Mock.server +:+ "/JSSResource/mock/test"))
      (Mock.mkMockResponse "") Mock.morning = (Mock.signedIn, r', v', w', err) /\
    wire w' = [r'; Mock.tokenRequest Mock.fresh] /\
    Header.Get (Request.Header r') "Accept" =
      "application/json, application/xml;q=0.9" /\
    Header.Get (Request.Header r') "Authorization" =
      "Bearer abcdefghijklmnopqrstuvwxyz".
Proof.
  destruct (makeAPIrequest_decorates_request Mock.fresh Mock.signedIn
              (Mock.get (Mock.server +:+ "/JSSResource/mock/test"))
              (Mock.mkMockResponse "") Mock.morning
              (Mock.sent Mock.morning (Mock.tokenRequest Mock.fresh)))
    as (r' & v' & w' & err & Hrun & Hwire & _ & _ & Haccept & _ & _ & Hauth);
    [by vm_compute|].
  by exists r', v', w', err.
Defined.

(** * Further properties of the pipeline and of its callers *)

(** ** Every way through [makeAPIrequest] *)

Section dispatcher_cases.
Context {P : Platform} {JT : JSONUnmarshal JamfToken}.
Context {V : Type} {JV : JSONUnmarshal V} {XV : XMLUnmarshal V}.

Implicit Types (j : Client) (r : Request.t) (v : V) (w : World)
  (res : Response.t).

Lemma Do_sends (c : HttpClient.t) r w :
  Http.Do c r w =
    (mkWorld (now w) (r :: wire w),
     default DefaultTransport (HttpClient.Transport c) (wire w) r).
Proof. reflexivity. Qed.

Lemma makeAPIrequest_cases j r v w :
  (exists j1 w1 cause,
     checkTokenExpiration j w = (j1, w1, Some cause) /\
     makeAPIrequest j r v w =
       (j1, r, v, w1,
        Some ("error checking for bearer token expiration" +:+ ": " +:+ cause))) \/
  (exists j1 w1 r' w2,
     checkTokenExpiration j w = (j1, w1, None) /\
     r' = setRequestHeaders j1 r /\
     w2 = mkWorld (now w1) (r' :: wire w1) /\
     ((exists cause,
         Http.Do (api j1) r' w1 = (w2, inr cause) /\
         makeAPIrequest j r v w =
           (j1, r', v, w2,
            Some (("error making " +:+ Request.Method r' +:+ " request to " +:+
                   Request.URL r') +:+ ": " +:+ cause))) \/
      (exists res,
         Http.Do (api j1) r' w1 = (w2, inl res) /\
         ((statusOK (Response.StatusCode res) = false /\
           makeAPIrequest j r v w = (j1, r', v, w2, requestError res)) \/
          (statusOK (Response.StatusCode res) = true /\
           In (baseMediaType res) markupTypes /\
           exists v' err,
             xml_Decode (Response.Body_ res) v = (v', err) /\
             makeAPIrequest j r v w =
               (j1, r', v', w2,
                Errors.Wrapf err
                  ("response was successful but error occured decoding response body of type "
                   +:+ baseMediaType res))) \/
          (statusOK (Response.StatusCode res) = true /\
           In (baseMediaType res) jsonTypes /\
           exists v' err,
             json_Decode (Response.Body_ res) v = (v', err) /\
             makeAPIrequest j r v w =
               (j1, r', v', w2,
                Errors.Wrapf err
                  ("response was successful but error occured error decoding response body of type "
                   +:+ baseMediaType res))) \/
          (statusOK (Response.StatusCode res) = true /\
           ~ In (baseMediaType res) markupTypes /\
           ~ In (baseMediaType res) jsonTypes /\
           makeAPIrequest j r v w = (j1, r', v, w2, None)))))).
Proof.
  destruct (checkTokenExpiration j w) as [[j1 w1] [cause|]] eqn:Hguard.
  { left. exists j1, w1, cause. split; [done|].
    by apply makeAPIrequest_guard_failed. }
  right. eexists j1, w1, (setRequestHeaders j1 r), _.
  split; [done|]. split; [done|]. split; [done|].
  pose proof (Do_sends (api j1) (setRequestHeaders j1 r) w1) as Hdo.
  destruct (default DefaultTransport (HttpClient.Transport (api j1)) (wire w1)
              (setRequestHeaders j1 r)) as [res|cause].
  2: { left. exists cause. split; [done|].
       by apply (makeAPIrequest_transport_error _ _ _ _ _ _ _ _ Hguard Hdo). }
  right. exists res. split; [done|].
  destruct (statusOK (Response.StatusCode res)) eqn:Hstatus.
  2: { left. split; [done|].
       by apply (makeAPIrequest_rejected _ _ _ _ _ _ _ _ Hguard Hdo). }
  right.
  destruct (in_dec String.string_dec (baseMediaType res) markupTypes) as [Hxml|Hxml].
  { left. split; [done|]. split; [done|].
    destruct (xml_Decode (Response.Body_ res) v) as [v' err] eqn:Hdecode.
    exists v', err. split; [done|].
    by apply (makeAPIrequest_markup _ _ _ _ _ _ _ _ _ _ Hguard Hdo). }
  destruct (in_dec String.string_dec (baseMediaType res) jsonTypes) as [Hjson|Hjson].
  { right. left. split; [done|]. split; [done|].
    destruct (json_Decode (Response.Body_ res) v) as [v' err] eqn:Hdecode.
    exists v', err. split; [done|].
    by apply (makeAPIrequest_json _ _ _ _ _ _ _ _ _ _ Hguard Hdo). }
  right. right. split_and!; [done..|].
  by apply (makeAPIrequest_unexpected _ _ _ _ _ _ _ _ Hguard Hdo).
Qed.
End dispatcher_cases.

(** Case analysis on a run of [makeAPIrequest]: the guard failed, the
    transport failed, the response was rejected, a decoder ran (XML or JSON),
    or the media type was unknown. *)
Ltac makeAPIrequest_by_cases j r v w :=
  destruct (makeAPIrequest_cases j r v w) as
    [(?j1 & ?w1 & ?cause & ?Hguard & ?Hrun)
    |(?j1 & ?w1 & ?r' & ?w2 & ?Hguard & ?Hr' & ?Hw2 &
       [(?cause & ?Hdo & ?Hrun)
       |(?res & ?Hdo &
          [(?Hstatus & ?Hrun)
          |[(?Hstatus & ?Hxml & ?v' & ?err & ?Hdecode & ?Hrun)
           |[(?Hstatus & ?Hjson & ?v' & ?err & ?Hdecode & ?Hrun)
            |(?Hstatus & ?Hxml & ?Hjson & ?Hrun)]]])])].

(** ** Every way through [requestToken] and the guard *)

Lemma sameConfiguration_refl (j : Client) : sameConfiguration j j.
Proof. by repeat split. Qed.

Lemma sameConfiguration_setToken (j : Client) (tok : JamfToken) :
  sameConfiguration j (setToken j tok).
Proof. by repeat split. Qed.

Lemma sameConfiguration_trans (j j' j'' : Client) :
  sameConfiguration j j' -> sameConfiguration j' j'' -> sameConfiguration j j''.
Proof.
  unfold sameConfiguration. intros (-> & -> & -> & -> & ->) (-> & -> & -> & -> & ->).
  by repeat split.
Qed.

Section acquisition_cases.
Context {P : Platform} {JT : JSONUnmarshal JamfToken}.

Lemma requestToken_cases (j : Client) (w : World) :
  (exists cause,
     url_Parse (Domain j +:+ "/api/v1/auth/token") = Some cause /\
     requestToken j w =
       (j, w, Some ("error creating bearer token request" +:+ ": " +:+ cause))) \/
  (exists w1 answer,
     url_Parse (Domain j +:+ "/api/v1/auth/token") = None /\
     w1 = mkWorld (now w) (authRequest j :: wire w) /\
     answer = default DefaultTransport (HttpClient.Transport (api j)) (wire w)
                (authRequest j) /\
     ((exists cause,
         answer = inr cause /\
         requestToken j w =
           (j, w1,
            Some (("error making " +:+ "POST" +:+ " request to " +:+
                   (Domain j +:+ "/api/v1/auth/token")) +:+ ": " +:+ cause))) \/
      (exists res,
         answer = inl res /\
         ((statusOK (Response.StatusCode res) = false /\
           requestToken j w = (j, w1, requestError res)) \/
          (statusOK (Response.StatusCode res) = true /\
           exists tok err,
             json_Decode (Response.Body_ res) (Token j) = (tok, err) /\
             requestToken j w =
               (setToken j tok, w1,
                Errors.Wrapf err
                  "response was successful but error occured decoding JSON token response")))))).
Proof.
  destruct (url_Parse (Domain j +:+ "/api/v1/auth/token")) as [cause|] eqn:Hurl.
  { left. exists cause. split; [done|].
    apply requestToken_bad_endpoint. unfold Http.NewRequestWithContext.
    by rewrite Hurl. }
  right. eexists _, _. split; [done|]. split; [done|]. split; [done|].
  assert (Http.NewRequestWithContext "POST" (Domain j +:+ "/api/v1/auth/token") =
          inl (Request.mk "POST" (Domain j +:+ "/api/v1/auth/token") ∅)) as Hreq.
  { unfold Http.NewRequestWithContext. by rewrite Hurl. }
  pose proof (Do_sends (api j) (authRequest j) w) as Hdo.
  destruct (default DefaultTransport (HttpClient.Transport (api j)) (wire w)
              (authRequest j)) as [res|cause].
  2: { left. exists cause. split; [done|].
       by apply (requestToken_transport_error _ _ _ _ _ Hreq Hdo). }
  right. exists res. split; [done|].
  destruct (statusOK (Response.StatusCode res)) eqn:Hstatus.
  2: { left. split; [done|]. by apply (requestToken_rejected _ _ _ _ _ Hreq Hdo). }
  right. split; [done|].
  destruct (json_Decode (Response.Body_ res) (Token j)) as [tok err] eqn:Hdecode.
  exists tok, err. split; [done|].
  by apply (requestToken_decoded _ _ _ _ _ _ _ Hreq Hdo).
Qed.

(** What a run of [requestToken] does to the client and to the world. *)
Lemma requestToken_footprint (j : Client) (w : World) :
  exists j' w' err,
    requestToken j w = (j', w', err) /\
    sameConfiguration j j' /\
    now w' = now w /\
    (wire w' = wire w /\ j' = j /\ err <> None \/
     wire w' = authRequest j :: wire w).
Proof.
  destruct (requestToken_cases j w) as
    [(cause & _ & ->)
    |(w1 & answer & _ & -> & _ &
       [(cause & _ & ->)
       |(res & _ & [[_ ->]|(_ & tok & err & _ & ->)])])];
    eexists _, _, _; (split; [done|]);
    auto using sameConfiguration_refl, sameConfiguration_setToken.
  split; [apply sameConfiguration_refl|]. split; [done|]. left. by split_and!.
Qed.

(** What a run of the guard does to the client and to the world. *)
Lemma checkTokenExpiration_footprint (j : Client) (w : World) :
  exists j' w' err,
    checkTokenExpiration j w = (j', w', err) /\
    sameConfiguration j j' /\
    now w' = now w /\
    (wire w' = wire w /\ j' = j \/
     wire w' = authRequest j :: wire w).
Proof.
  destruct (checkTokenExpiration_cases j w) as [[err ->]| ->].
  { exists j, w, err. split; [done|]. split; [apply sameConfiguration_refl|].
    split; [done|]. by left. }
  destruct (requestToken_footprint j w) as (j' & w' & err & -> & Hsame & Hnow & Hwire).
  eexists _, _, _. split; [done|]. split; [done|]. split; [done|].
  destruct Hwire as [(Hwire & -> & _)|Hwire]; [by left|by right].
Qed.
End acquisition_cases.

(** ** What the pipeline keeps and what it sends *)

Section pipeline_footprint.
Context {P : Platform} {JT : JSONUnmarshal JamfToken}.
Context {V : Type} {JV : JSONUnmarshal V} {XV : XMLUnmarshal V}.

Implicit Types (j : Client) (r : Request.t) (v : V) (w : World)
  (res : Response.t).

(** X1.  Whatever their outcome, [requestToken], [checkTokenExpiration] and
    [makeAPIrequest] leave the domain, the username, the password, the
    endpoint and the HTTP client of the client as they were: of the client
    only the token store is ever written. *)
Theorem pipeline_keeps_configuration j r v w :
  sameConfiguration j (requestToken j w).1.1 /\
  sameConfiguration j (checkTokenExpiration j w).1.1 /\
  sameConfiguration j (makeAPIrequest j r v w).1.1.1.1.
Proof.
  split_and!.
  - by destruct (requestToken_footprint j w) as (j' & w' & err & -> & Hsame & _).
  - by destruct (checkTokenExpiration_footprint j w)
      as (j' & w' & err & -> & Hsame & _).
  - destruct (checkTokenExpiration_footprint j w)
      as (j' & w' & err & Hguard' & Hsame & _).
    makeAPIrequest_by_cases j r v w; rewrite Hrun; simpl;
      rewrite Hguard in Hguard'; by injection Hguard' as <- _ _.
Qed.

(** X2.  When the address of the authentication endpoint is not a URL,
    [requestToken] sends nothing, leaves the client alone and reports that
    the request could not be created.  Otherwise it sends exactly one
    request, whatever the answer: a [POST] to the domain followed by
    [/api/v1/auth/token] whose only header is [Authorization], with the
    basic credentials of the client; the requests sent earlier stay in
    place. *)
Theorem requestToken_sends_one_basic_request (j : Client) w :
  exists j' w' err,
    requestToken j w = (j', w', err) /\
    match url_Parse (Domain j +:+ "/api/v1/auth/token") with
    | Some cause =>
        j' = j /\ w' = w /\
        err = Some ("error creating bearer token request: " +:+ cause)
    | None =>
        exists sent,
          wire w' = sent :: wire w /\
          Request.Method sent = "POST" /\
          Request.URL sent = Domain j +:+ "/api/v1/auth/token" /\
          Request.Header sent =
            {[ "Authorization" :=
                 ["Basic " +:+ basicAuth (Username j) (Password j)] ]}
    end.
Proof.
  destruct (requestToken_cases j w) as
    [(cause & -> & ->)
    |(w1 & answer & -> & -> & _ &
       [(cause & _ & ->)
       |(res & _ & [[_ ->]|(_ & tok & err & _ & ->)])])];
    eexists _, _, _; (split; [done|]); try done.
  all: exists (authRequest j); split_and!; try done.
  all: unfold authRequest, Http.SetBasicAuth, Request.SetHeader, Header.Set_; simpl.
  all: by rewrite insert_empty.
Qed.

(** X3.  A call of [makeAPIrequest] sends at most two requests and removes
    none: the token request, if any, goes first and the decorated request
    of the caller second.  When the caller's request is not sent, the call
    returns an error and the request comes back as it was passed; when it is
    sent without a token request before it, the token store is untouched. *)
Theorem makeAPIrequest_sends_at_most_two j r v w :
  exists j' r' v' w' err,
    makeAPIrequest j r v w = (j', r', v', w', err) /\
    now w' = now w /\
    (wire w' = wire w /\ r' = r /\ err <> None \/
     wire w' = authRequest j :: wire w /\ r' = r /\ err <> None \/
     wire w' = setRequestHeaders j' r :: wire w /\
       r' = setRequestHeaders j' r /\ j' = j \/
     wire w' = setRequestHeaders j' r :: authRequest j :: wire w /\
       r' = setRequestHeaders j' r).
Proof.
  destruct (checkTokenExpiration_footprint j w)
    as (j0 & w0 & err0 & Hguard' & _ & Hnow & Hwire).
  makeAPIrequest_by_cases j r v w; rewrite Hrun; eexists _, _, _, _, _;
    (split; [done|]); rewrite Hguard in Hguard';
    injection Hguard' as <- <- <-; subst; simpl.
  { split; [done|]. destruct Hwire as [[-> _]| ->]; [left|right; left]; done. }
  all: split; [done|].
  all: destruct Hwire as [[-> ->]| ->]; [right; right; left|right; right; right]; done.
Qed.

(** X4.  With a stored expiration that parses and lies more than five
    minutes ahead, a call of [makeAPIrequest] sends exactly one request, the
    caller's, carrying the stored token as bearer, and leaves the client as
    it was. *)
Theorem makeAPIrequest_reuses_valid_token j r v w (t : GoTime.Time) :
  JamfToken.Expires (Token j) <> "" ->
  time_Parse_RFC3339 (JamfToken.Expires (Token j)) = inl t ->
  now w + 5 * GoTime.Minute < t ->
  exists v' w' err,
    makeAPIrequest j r v w = (j, setRequestHeaders j r, v', w', err) /\
    wire w' = setRequestHeaders j r :: wire w /\
    Header.Get (Request.Header (setRequestHeaders j r)) "Authorization" =
      "Bearer " +:+ JamfToken.Token (Token j).
Proof.
  intros Hset Hparse Hfar.
  pose proof (checkTokenExpiration_valid j w t Hset Hparse Hfar) as Hvalid.
  destruct (makeAPIrequest_after_guard j j r v w w Hvalid) as (v' & err & ->).
  eexists _, _, _. split; [done|]. split; [done|].
  unfold setRequestHeaders, Request.SetHeader. simpl. by rewrite Header_Get_Set.
Qed.

(** X5.  When the token is absent or due and [requestToken] fails, for
    whatever reason, [makeAPIrequest] returns that failure under two layers
    of context, without sending the caller's request and without touching
    the request or the container. *)
Theorem makeAPIrequest_reports_failed_acquisition j j' r v w w' (cause : string) :
  JamfToken.Expires (Token j) = "" \/
  (exists t, time_Parse_RFC3339 (JamfToken.Expires (Token j)) = inl t /\
             t <= now w + 5 * GoTime.Minute) ->
  requestToken j w = (j', w', Some cause) ->
  makeAPIrequest j r v w =
    (j', r, v, w',
     Some ("error checking for bearer token expiration: " +:+
           "error requesting new bearer token: " +:+ cause)) /\
  (wire w' = wire w \/ wire w' = authRequest j :: wire w).
Proof.
  intros Hdue Hrun. split.
  - rewrite (makeAPIrequest_guard_failed j j' r v w w'
               ("error requesting new bearer token" +:+ ": " +:+ cause)); [done|].
    by rewrite (checkTokenExpiration_acquires _ _ Hdue), Hrun.
  - destruct (requestToken_footprint j w) as (j0 & w0 & err0 & Hrun' & _ & _ & Hwire).
    rewrite Hrun in Hrun'. injection Hrun' as <- <- <-.
    destruct Hwire as [[-> _]| ->]; auto.
Qed.
End pipeline_footprint.

(** ** Outcomes of [makeAPIrequest] *)

Lemma HasPrefix_append (prefix post : string) :
  Strings.HasPrefix (prefix +:+ post) prefix = true.
Proof. apply HasPrefix_spec. by exists post. Qed.

Lemma HasPrefix_append_l (s prefix post : string) :
  Strings.HasPrefix s prefix = true ->
  Strings.HasPrefix (s +:+ post) prefix = true.
Proof.
  rewrite !HasPrefix_spec. intros [rest ->]. exists (rest +:+ post).
  by rewrite append_assoc.
Qed.

(** One piece of a split, the first, always exists; it holds no separator,
    and the text is that piece alone or that piece, a separator and more. *)
Lemma Split_head (s : string) (sep : ascii) :
  exists t pieces,
    Strings.Split s sep = t :: pieces /\
    Strings.Contains t (String sep "") = false /\
    (s = t \/ exists rest, s = t +:+ String sep rest).
Proof.
  induction s as [|c s (t & pieces & IH & Hfree & Hshape)]; simpl.
  - exists "", []. split; [done|]. split; [|by left].
    simpl. by destruct sep.
  - destruct (Ascii.eqb_spec c sep) as [->|Hne].
    + exists "", (Strings.Split s sep). split; [done|]. split.
      * simpl. by destruct sep.
      * right. by exists s.
    + rewrite IH. exists (String c t), pieces. split; [done|]. split.
      * simpl. destruct (Ascii.eqb_spec sep c) as [->|_]; [done|].
        simpl in Hfree. by destruct t.
      * destruct Hshape as [->|[rest ->]]; [by left|right].
        exists rest. by rewrite append_cons.
Qed.

(** X8.  The media type the dispatcher looks at holds no [;] and starts the
    declared content type: it is the whole of it, or what precedes its first
    [;].  A response without [Content-Type] has the empty media type. *)
Theorem baseMediaType_starts_content_type (res : Response.t) :
  Strings.Contains (baseMediaType res) ";" = false /\
  (Header.Get (Response.Header res) "Content-Type" = baseMediaType res \/
   exists params,
     Header.Get (Response.Header res) "Content-Type" =
       baseMediaType res +:+ ";" +:+ params) /\
  (Response.Header res !! "Content-Type" = None -> baseMediaType res = "").
Proof.
  unfold baseMediaType.
  destruct (Split_head (Header.Get (Response.Header res) "Content-Type") ";"%char)
    as (t & pieces & Hsplit & Hfree & Hshape).
  split_and!.
  - by rewrite Hsplit.
  - rewrite Hsplit. destruct Hshape as [->|[rest ->]]; [by left|right].
    exists rest. by rewrite append_cons, append_nil_l.
  - intros Hmissing. unfold Header.Get. by rewrite Hmissing.
Qed.

Section dispatcher_outcomes.
Context {P : Platform} {JT : JSONUnmarshal JamfToken}.
Context {V : Type} {JV : JSONUnmarshal V} {XV : XMLUnmarshal V}.

Implicit Types (j : Client) (r : Request.t) (v : V) (w : World)
  (res : Response.t).

(** X6.  The text of every error of [makeAPIrequest] starts in one of four
    ways, one for each stage that can fail: the guard, the transport, the
    status check and the decoders. *)
Theorem makeAPIrequest_error_starts j j' r r' v v' w w' (msg : string) :
  makeAPIrequest j r v w = (j', r', v', w', Some msg) ->
  Strings.HasPrefix msg "error checking for bearer token expiration: " = true \/
  Strings.HasPrefix msg "error making " = true \/
  Strings.HasPrefix msg "request error: " = true \/
  Strings.HasPrefix msg "response was successful but error occured " = true.
Proof.
  intros Hresult.
  makeAPIrequest_by_cases j r v w; rewrite Hrun in Hresult.
  - injection Hresult as _ _ _ _ <-. left.
    apply (HasPrefix_append "error checking for bearer token expiration: ").
  - injection Hresult as _ _ _ _ <-. right. left.
    rewrite append_assoc. apply (HasPrefix_append "error making ").
  - destruct (requestError_is_error res) as (msg' & Hmsg & Hprefix).
    rewrite Hmsg in Hresult. injection Hresult as _ _ _ _ <-. auto.
  - destruct err as [cause0|]; [|done]. injection Hresult as _ _ _ _ <-.
    do 3 right. apply HasPrefix_append_l.
    apply (HasPrefix_append "response was successful but error occured ").
  - destruct err as [cause0|]; [|done]. injection Hresult as _ _ _ _ <-.
    do 3 right. apply HasPrefix_append_l.
    apply (HasPrefix_append "response was successful but error occured ").
  - done.
Qed.

(** X7.  When [makeAPIrequest] returns [nil], the guard passed, the decorated
    request was sent and answered with status 200 or 201, and the container
    is what the XML decoder (for the two markup types) or the JSON decoder
    (for the three JSON types) made of it without error; for any other media
    type the container is as the caller passed it. *)
Theorem makeAPIrequest_nil_means_accepted j j' r r' v v' w w' :
  makeAPIrequest j r v w = (j', r', v', w', None) ->
  exists w1 res,
    checkTokenExpiration j w = (j', w1, None) /\
    r' = setRequestHeaders j' r /\
    Http.Do (api j') r' w1 = (w', inl res) /\
    (Response.StatusCode res = 200 \/ Response.StatusCode res = 201) /\
    (In (baseMediaType res) markupTypes /\
       xml_Decode (Response.Body_ res) v = (v', None) \/
     In (baseMediaType res) jsonTypes /\
       json_Decode (Response.Body_ res) v = (v', None) \/
     ~ In (baseMediaType res) markupTypes /\
       ~ In (baseMediaType res) jsonTypes /\ v' = v).
Proof.
  intros Hresult.
  makeAPIrequest_by_cases j r v w; rewrite Hrun in Hresult; try done.
  - destruct (requestError_is_error res) as (msg & Hmsg & _).
    by rewrite Hmsg in Hresult.
  - destruct err as [cause|]; [done|]. injection Hresult as <- <- <- <-.
    exists w1, res. apply statusOK_true in Hstatus. subst. split_and!; auto.
  - destruct err as [cause|]; [done|]. injection Hresult as <- <- <- <-.
    exists w1, res. apply statusOK_true in Hstatus. subst. split_and!; auto.
  - injection Hresult as <- <- <- <-.
    exists w1, res. apply statusOK_true in Hstatus. subst. split_and!; auto.
Qed.

(** X9.  [MockAPIRequest] sets the basic credentials and its own [Accept]
    header, and [makeAPIrequest] replaces both once the guard has passed:
    the request sent, which is the request returned, then carries the bearer
    token and the [Accept] header of the dispatcher, and it is the one
    request sent after the guard.  When the guard fails, the caller's
    request is not sent: the client and the world are as the guard left
    them, an error is returned, and the request comes back with the basic
    credentials.  Method and address are the caller's in both cases. *)
Theorem MockAPIRequest_credentials j r v w :
  exists j' r' v' w' err,
    MockAPIRequest j r v w = (j', r', v', w', err) /\
    Request.Method r' = Request.Method r /\
    Request.URL r' = Request.URL r /\
    match checkTokenExpiration j w with
    | (j1, w1, Some _) =>
        j' = j1 /\ w' = w1 /\ v' = v /\
        err <> None /\
        Header.Get (Request.Header r') "Authorization" =
          "Basic " +:+ basicAuth (Username j) (Password j) /\
        Header.Get (Request.Header r') "Accept" =
          "application/json,  application/xml;q=0.9"
    | (j1, w1, None) =>
        j' = j1 /\
        now w' = now w1 /\
        wire w' = r' :: wire w1 /\
        Header.Get (Request.Header r') "Authorization" =
          "Bearer " +:+ JamfToken.Token (Token j') /\
        Header.Get (Request.Header r') "Accept" =
          "application/json, application/xml;q=0.9"
    end.
Proof.
  unfold MockAPIRequest.
  set (r0 := Http.SetBasicAuth
               (Request.SetHeader r "Accept" "application/json,  application/xml;q=0.9")
               (Username j) (Password j)).
  assert (Header.Get (Request.Header r0) "Authorization" =
            "Basic " +:+ basicAuth (Username j) (Password j) /\
          Header.Get (Request.Header r0) "Accept" =
            "application/json,  application/xml;q=0.9") as Hbasic.
  { unfold r0, Http.SetBasicAuth, Request.SetHeader. simpl.
    by rewrite Header_Get_Set, Header_Get_Set_ne, Header_Get_Set. }
  assert (forall j1,
            Header.Get (Request.Header (setRequestHeaders j1 r0)) "Authorization" =
              "Bearer " +:+ JamfToken.Token (Token j1) /\
            Header.Get (Request.Header (setRequestHeaders j1 r0)) "Accept" =
              "application/json, application/xml;q=0.9") as Hbearer.
  { intros j1. unfold setRequestHeaders, Request.SetHeader. simpl.
    rewrite Header_Get_Set. do 3 rewrite Header_Get_Set_ne by done.
    by rewrite Header_Get_Set. }
  makeAPIrequest_by_cases j r0 v w; rewrite Hrun, Hguard; simpl;
    eexists _, _, _, _, _; (split; [done|]); subst.
  { do 6 (split; [done|]). apply Hbasic. }
  all: split; [done|]; split; [done|].
  all: do 3 (split; [done|]); apply Hbearer.
Qed.
End dispatcher_outcomes.

(** ** The callers *)

Section caller_properties.
Context {P : Platform} {JT : JSONUnmarshal JamfToken}.
Context {ComputerList Computer Identifier : Type}.
Context (zeroComputerList : ComputerList) (zeroComputer : Computer).
Context (EndpointBuilder : string -> string -> Identifier -> string + string).
Context (format_v : Identifier -> string).
Context {JL : JSONUnmarshal (option ComputerList)}
        {XL : XMLUnmarshal (option ComputerList)}
        {JC : JSONUnmarshal (option Computer)}
        {XC : XMLUnmarshal (option Computer)}.

(** What a caller makes of a run of [makeAPIrequest] on a fresh container:
    no result and the error under [context], or the container and [nil]. *)
Lemma caller_result {T : Type} {JU : JSONUnmarshal (option T)}
    {XU : XMLUnmarshal (option T)} (zero : T) (context : string)
    (j : Client) (req : Request.t) (w : World) :
  exists res j' w' err,
    (let '(j', _, res, w', err) := makeAPIrequest j req (Some zero) w in
     match err with
     | Some _ => (None, j', w', Errors.Wrapf err context)
     | None => (res, j', w', None)
     end) = (res, j', w', err) /\
    (forall msg, err = Some msg ->
       res = None /\ Strings.HasPrefix msg (context +:+ ": ") = true) /\
    (err = None ->
     exists w1 resp,
       checkTokenExpiration j w = (j', w1, None) /\
       Http.Do (api j') (setRequestHeaders j' req) w1 = (w', inl resp) /\
       (Response.StatusCode resp = 200 \/ Response.StatusCode resp = 201) /\
       (In (baseMediaType resp) markupTypes /\
          xml_Decode (Response.Body_ resp) (Some zero) = (res, None) \/
        In (baseMediaType resp) jsonTypes /\
          json_Decode (Response.Body_ resp) (Some zero) = (res, None) \/
        ~ In (baseMediaType resp) markupTypes /\
          ~ In (baseMediaType resp) jsonTypes /\ res = Some zero)).
Proof.
  assert (forall cause,
            Strings.HasPrefix (context +:+ ": " +:+ cause) (context +:+ ": ") = true)
    as Hprefix.
  { intros cause. apply HasPrefix_spec. exists cause. by rewrite append_assoc. }
  makeAPIrequest_by_cases j req (Some zero) w; rewrite Hrun.
  - eexists _, _, _, _. split; [done|]. split; [|done].
    intros msg [= <-]. by split.
  - eexists _, _, _, _. split; [done|]. split; [|done].
    intros msg [= <-]. by split.
  - destruct (requestError_is_error res) as (msg0 & -> & _).
    eexists _, _, _, _. split; [done|]. split; [|done].
    intros msg [= <-]. by split.
  - destruct err as [cause|]; eexists _, _, _, _; (split; [done|]); split; try done.
    + intros msg [= <-]. by split.
    + intros _. exists w1, res. apply statusOK_true in Hstatus. subst.
      split_and!; auto.
  - destruct err as [cause|]; eexists _, _, _, _; (split; [done|]); split; try done.
    + intros msg [= <-]. by split.
    + intros _. exists w1, res. apply statusOK_true in Hstatus. subst.
      split_and!; auto.
  - eexists _, _, _, _. split; [done|]. split; [done|].
    intros _. exists w1, res. apply statusOK_true in Hstatus. subst.
    split_and!; auto.
Qed.

(** X10.  [Computers] returns no list whenever it returns an error, and the
    text of the error tells whether the request could not be built or the
    query failed, naming the address queried.  When it returns [nil], a
    [GET] to the endpoint followed by [/computers] was answered with status
    200 or 201, and the list is what the decoder selected by the media type
    made of the fresh list, or the fresh list itself for a media type the
    dispatcher does not know. *)
Theorem Computers_result (j : Client) (w : World) :
  exists res j' w' err,
    Computers zeroComputerList j w = (res, j', w', err) /\
    (forall msg, err = Some msg ->
       res = None /\
       (Strings.HasPrefix msg "error building JAMF computer query request: " = true /\
          j' = j /\ w' = w \/
        Strings.HasPrefix msg
          ("unable to query enrolled computers from " +:+ Endpoint j +:+
           "/computers: ") = true)) /\
    (err = None ->
     exists w1 resp,
       checkTokenExpiration j w = (j', w1, None) /\
       Http.Do (api j')
         (setRequestHeaders j' (Request.mk "GET" (Endpoint j +:+ "/computers") ∅))
         w1 = (w', inl resp) /\
       (Response.StatusCode resp = 200 \/ Response.StatusCode resp = 201) /\
       (In (baseMediaType resp) markupTypes /\
          xml_Decode (Response.Body_ resp) (Some zeroComputerList) = (res, None) \/
        In (baseMediaType resp) jsonTypes /\
          json_Decode (Response.Body_ resp) (Some zeroComputerList) = (res, None) \/
        ~ In (baseMediaType resp) markupTypes /\
          ~ In (baseMediaType resp) jsonTypes /\ res = Some zeroComputerList)).
Proof.
  unfold Computers, Http.NewRequestWithContext, computersContext.
  destruct (url_Parse (Endpoint j +:+ "/" +:+ "computers")) as [cause|].
  { eexists _, _, _, _. split; [done|]. split; [|done].
    intros msg [= <-]. split; [done|]. left. split; [|done].
    apply (HasPrefix_append "error building JAMF computer query request: "). }
  destruct (caller_result zeroComputerList
              ("unable to query enrolled computers from " +:+
               Endpoint j +:+ "/" +:+ "computers")
              j (Request.mk "GET" (Endpoint j +:+ "/" +:+ "computers") ∅) w)
    as (res & j' & w' & err & -> & Herror & Hnil).
  exists res, j', w', err. split; [done|]. split; [|done].
  intros msg Hmsg. destruct (Herror msg Hmsg) as [-> Hprefix].
  split; [done|]. right. by rewrite !append_assoc in Hprefix.
Qed.

(** X11.  [ComputerDetails] returns no computer whenever it returns an
    error, and every one of its errors names the identifier.  When
    [EndpointBuilder] fails, nothing is sent and the client is left alone.
    When it returns [nil], a [GET] to the address [EndpointBuilder] gave was
    answered with status 200 or 201, and the computer is what the decoder
    selected by the media type made of the fresh computer, or the fresh
    computer itself for a media type the dispatcher does not know. *)
Theorem ComputerDetails_result (identifier : Identifier) (j : Client) (w : World) :
  exists res j' w' err,
    ComputerDetails zeroComputer EndpointBuilder format_v identifier j w =
      (res, j', w', err) /\
    (forall msg, err = Some msg ->
       res = None /\ Mentions (format_v identifier) msg) /\
    (forall cause,
       EndpointBuilder (Endpoint j) "computers" identifier = inr cause ->
       j' = j /\ w' = w /\
       err = Some ("error building JAMF query request endpoint for computer: " +:+
                   format_v identifier +:+ ": " +:+ cause)) /\
    (err = None ->
     exists ep w1 resp,
       EndpointBuilder (Endpoint j) "computers" identifier = inl ep /\
       checkTokenExpiration j w = (j', w1, None) /\
       Http.Do (api j') (setRequestHeaders j' (Request.mk "GET" ep ∅)) w1 =
         (w', inl resp) /\
       (Response.StatusCode resp = 200 \/ Response.StatusCode resp = 201) /\
       (In (baseMediaType resp) markupTypes /\
          xml_Decode (Response.Body_ resp) (Some zeroComputer) = (res, None) \/
        In (baseMediaType resp) jsonTypes /\
          json_Decode (Response.Body_ resp) (Some zeroComputer) = (res, None) \/
        ~ In (baseMediaType resp) markupTypes /\
          ~ In (baseMediaType resp) jsonTypes /\ res = Some zeroComputer)).
Proof.
  unfold ComputerDetails, Http.NewRequestWithContext, computersContext.
  destruct (EndpointBuilder (Endpoint j) "computers" identifier) as [ep|cause].
  2: { eexists _, _, _, _. split; [done|]. split_and!; [|intros ? [= <-]|done].
       - intros msg [= <-]. split; [done|].
         apply Mentions_append_l, Mentions_end.
       - split; [done|]. split; [done|]. simpl. by rewrite append_assoc. }
  destruct (url_Parse ep) as [cause|].
  { eexists _, _, _, _. split; [done|]. split_and!; [|done..].
    intros msg [= <-]. split; [done|].
    apply Mentions_append_l, Mentions_append_r, Mentions_here. }
  destruct (caller_result zeroComputer
              ("unable to query enrolled computer for computer: " +:+
               format_v identifier +:+ " (" +:+ ep +:+ ")")
              j (Request.mk "GET" ep ∅) w)
    as (res & j' & w' & err & -> & Herror & Hnil).
  exists res, j', w', err. split; [done|]. split_and!; [|done|].
  - intros msg Hmsg. destruct (Herror msg Hmsg) as [-> Hprefix].
    split; [done|]. apply HasPrefix_spec in Hprefix as [post ->].
    do 2 apply Mentions_append_l. apply Mentions_append_r, Mentions_here.
  - intros Herr. destruct (Hnil Herr) as (w1 & resp & ?). by exists ep, w1, resp.
Qed.
End caller_properties.

(** ** The first call of a new client *)

Section first_call.
Context {P : Platform} {JT : JSONUnmarshal JamfToken}.

Lemma NewClient_client (domain username password : string)
    (client : option HttpClient.t) (j : Client) :
  NewClient domain username password client = (Some j, None) ->
  j = mkClient domain username password (domain +:+ "/JSSResource")
        (JamfToken.mk "" "") (default defaultHTTPClient client).
Proof.
  unfold NewClient.
  destruct (String.eqb domain "" || String.eqb username "" || String.eqb password "");
    [done|].
  intros [= <-]. by destruct client.
Qed.

(** The guard of a client that holds no expiration. *)
Lemma checkTokenExpiration_without_token (j : Client) (w : World) :
  JamfToken.Expires (Token j) = "" ->
  exists j1 w1 err,
    checkTokenExpiration j w = (j1, w1, err) /\
    match url_Parse (Domain j +:+ "/api/v1/auth/token") with
    | Some _ => w1 = w /\ err <> None
    | None => wire w1 = authRequest j :: wire w
    end.
Proof.
  intros Hempty.
  rewrite (checkTokenExpiration_acquires j w (or_introl Hempty)).
  destruct (requestToken_cases j w) as
    [(cause & -> & ->)
    |(w1 & answer & -> & -> & _ &
       [(cause & _ & ->)
       |(res & _ & [[_ ->]|(_ & tok & err & _ & ->)])])];
    by eexists _, _, _.
Qed.

Section any_request.
Context {V : Type} {JV : JSONUnmarshal V} {XV : XMLUnmarshal V}.

(** X12.  The first call of [makeAPIrequest] on a client that [NewClient]
    has just built starts with the token request, a [POST] to the domain
    followed by [/api/v1/auth/token] with the basic credentials given to
    [NewClient]: the caller's request is sent after it or not at all, and
    when that address is not a URL nothing is sent and the call fails. *)
Theorem new_client_requests_token_first
    (domain username password : string) (client : option HttpClient.t)
    (j : Client) (r : Request.t) (v : V) (w : World) :
  NewClient domain username password client = (Some j, None) ->
  Request.Method (authRequest j) = "POST" /\
  Request.URL (authRequest j) = domain +:+ "/api/v1/auth/token" /\
  Header.Get (Request.Header (authRequest j)) "Authorization" =
    "Basic " +:+ basicAuth username password /\
  exists j' r' v' w' err,
    makeAPIrequest j r v w = (j', r', v', w', err) /\
    match url_Parse (domain +:+ "/api/v1/auth/token") with
    | Some _ => wire w' = wire w /\ err <> None
    | None =>
        wire w' = authRequest j :: wire w /\ err <> None \/
        wire w' = setRequestHeaders j' r :: authRequest j :: wire w
    end.
Proof.
  intros ->%NewClient_client. split; [done|]. split; [done|].
  split; [apply Header_Get_Set|].
  set (j := mkClient _ _ _ _ _ _).
  destruct (checkTokenExpiration_without_token j w eq_refl)
    as (j0 & w0 & err0 & Hguard' & Hsent).
  change (Domain j) with domain in Hsent.
  makeAPIrequest_by_cases j r v w; rewrite Hrun; eexists _, _, _, _, _;
    (split; [done|]); rewrite Hguard in Hguard';
    injection Hguard' as <- <- <-; subst; simpl.
  { destruct (url_Parse _); [by destruct Hsent as [-> _]|by left]. }
  all: destruct (url_Parse _); [by destruct Hsent as [_ ?]|right; by rewrite Hsent].
Qed.
End any_request.

Section computers_query.
Context {ComputerList : Type} (zeroComputerList : ComputerList).
Context {JL : JSONUnmarshal (option ComputerList)}
        {XL : XMLUnmarshal (option ComputerList)}.

(** X13.  When [Computers] succeeds on a client that [NewClient] has just
    built, exactly two requests were sent: first the token request, then a
    [GET] to the domain followed by [/JSSResource/computers] that carries,
    as bearer, the token the client holds afterwards. *)
Theorem Computers_of_new_client
    (domain username password : string) (client : option HttpClient.t)
    (j j' : Client) (w w' : World) (res : option ComputerList) :
  NewClient domain username password client = (Some j, None) ->
  Computers zeroComputerList j w = (res, j', w', None) ->
  exists query,
    wire w' = query :: authRequest j :: wire w /\
    Request.Method query = "GET" /\
    Request.URL query = domain +:+ "/JSSResource/computers" /\
    Header.Get (Request.Header query) "Authorization" =
      "Bearer " +:+ JamfToken.Token (Token j') /\
    Request.URL (authRequest j) = domain +:+ "/api/v1/auth/token".
Proof.
  intros ->%NewClient_client. set (j := mkClient _ _ _ _ _ _).
  unfold Computers, Http.NewRequestWithContext, computersContext.
  destruct (url_Parse (Endpoint j +:+ "/" +:+ "computers")) as [cause|]; [done|].
  set (req := Request.mk "GET" (Endpoint j +:+ "/" +:+ "computers") ∅).
  intros Hrun.
  makeAPIrequest_by_cases j req (Some zeroComputerList) w;
    rewrite Hrun0 in Hrun; try done.
  { by destruct (requestError_is_error res0) as (msg & Hmsg & _);
      rewrite Hmsg in Hrun. }
  all: try (destruct err as [cause|]; [done|]).
  all: injection Hrun as <- <- <-; subst.
  all: destruct (checkTokenExpiration_without_token j w eq_refl)
         as (j0 & w0 & err0 & Hguard' & Hsent).
  all: rewrite Hguard in Hguard'; injection Hguard' as <- <- <-.
  all: destruct (url_Parse (Domain j +:+ "/api/v1/auth/token"));
         [by destruct Hsent as [_ ?]|].
  all: exists (setRequestHeaders j1 req); simpl; rewrite Hsent.
  all: split; [done|]; split; [done|].
  all: split; [unfold j; simpl; by rewrite append_assoc|].
  all: split; [|done].
  all: unfold setRequestHeaders, Request.SetHeader; simpl.
  all: by rewrite Header_Get_Set.
Qed.
End computers_query.
End first_call.

(** ** The further properties on the test doubles *)

#[local] Existing Instances MockInventory.rosterJSON MockInventory.rosterXML
  MockInventory.deviceJSON MockInventory.deviceXML.

Lemma makeAPIrequest_reuses_valid_token_witness :
  exists v' w' err,
    makeAPIrequest Mock.signedIn (Mock.get (Mock.server +:+ "/JSSResource/mock/test"))
      (Mock.mkMockResponse "") Mock.morning =
      (Mock.signedIn,
       setRequestHeaders Mock.signedIn (Mock.get (Mock.server +:+ "/JSSResource/mock/test")),
       v', w', err) /\
    length (wire w') = 1%nat.
Proof.
  destruct (makeAPIrequest_reuses_valid_token Mock.signedIn
              (Mock.get (Mock.server +:+ "/JSSResource/mock/test"))
              (Mock.mkMockResponse "") Mock.morning Mock.expiry)
    as (v' & w' & err & Hrun & Hwire & _); [by vm_compute..|].
  exists v', w', err. split; [done|]. by rewrite Hwire.
Defined.

Lemma makeAPIrequest_reports_failed_acquisition_witness :
  makeAPIrequest Mock.astray (Mock.get (Mock.server +:+ "/JSSResource/mock/test"))
    (Mock.mkMockResponse "") Mock.morning =
    (Mock.astray, Mock.get (Mock.server +:+ "/JSSResource/mock/test"),
     Mock.mkMockResponse "",
     Mock.sent Mock.morning (Mock.tokenRequest Mock.astray),
     Some ("error checking for bearer token expiration: " +:+
           "error requesting new bearer token: " +:+
           "request error: bad API call to http://127.0.0.1:8080/elsewhere/api/v1/auth/token")).
Proof.
  apply (makeAPIrequest_reports_failed_acquisition Mock.astray Mock.astray
           (Mock.get (Mock.server +:+ "/JSSResource/mock/test"))
           (Mock.mkMockResponse "") Mock.morning); [by left|by vm_compute].
Defined.

Lemma makeAPIrequest_error_starts_witness :
  Strings.HasPrefix
    "error making GET request to http://127.0.0.1:8080/JSSResource/mock/hangup: EOF"
    "error checking for bearer token expiration: " = true \/
  Strings.HasPrefix
    "error making GET request to http://127.0.0.1:8080/JSSResource/mock/hangup: EOF"
    "error making " = true \/
  Strings.HasPrefix
    "error making GET request to http://127.0.0.1:8080/JSSResource/mock/hangup: EOF"
    "request error: " = true \/
  Strings.HasPrefix
    "error making GET request to http://127.0.0.1:8080/JSSResource/mock/hangup: EOF"
    "response was successful but error occured " = true.
Proof.
  apply (makeAPIrequest_error_starts Mock.signedIn Mock.signedIn
           (Mock.get (Mock.server +:+ "/JSSResource/mock/hangup"))
           (setRequestHeaders Mock.signedIn
              (Mock.get (Mock.server +:+ "/JSSResource/mock/hangup")))
           (Mock.mkMockResponse "") (Mock.mkMockResponse "") Mock.morning
           (Mock.sent Mock.morning
              (setRequestHeaders Mock.signedIn
                 (Mock.get (Mock.server +:+ "/JSSResource/mock/hangup"))))).
  by vm_compute.
Defined.

Lemma makeAPIrequest_nil_means_accepted_witness :
  exists w1 res,
    checkTokenExpiration Mock.fresh Mock.morning = (Mock.signedIn, w1, None) /\
    (Response.StatusCode res = 200 \/ Response.StatusCode res = 201) /\
    (In (baseMediaType res) markupTypes /\
       xml_Decode (Response.Body_ res) (Mock.mkMockResponse "") =
         (Mock.mkMockResponse "OK", None) \/
     In (baseMediaType res) jsonTypes /\
       json_Decode (Response.Body_ res) (Mock.mkMockResponse "") =
         (Mock.mkMockResponse "OK", None) \/
     ~ In (baseMediaType res) markupTypes /\
       ~ In (baseMediaType res) jsonTypes /\
       Mock.mkMockResponse "OK" = Mock.mkMockResponse "").
Proof.
  destruct (makeAPIrequest_nil_means_accepted Mock.fresh Mock.signedIn
              (Mock.get (Mock.server +:+ "/JSSResource/mock/test"))
              (setRequestHeaders Mock.signedIn
                 (Mock.get (Mock.server +:+ "/JSSResource/mock/test")))
              (Mock.mkMockResponse "") (Mock.mkMockResponse "OK") Mock.morning
              (Mock.sent (Mock.sent Mock.morning (Mock.tokenRequest Mock.fresh))
                 (setRequestHeaders Mock.signedIn
                    (Mock.get (Mock.server +:+ "/JSSResource/mock/test")))))
    as (w1 & res & Hguard & _ & _ & Hstatus & Hdecoded); [by vm_compute|].
  by exists w1, res.
Defined.

Lemma new_client_requests_token_first_witness :
  exists j j' r' v' w',
    NewClient Mock.server "fake-username" "mock-password-cool" None = (Some j, None) /\
    makeAPIrequest j (Mock.get (Mock.server +:+ "/JSSResource/mock/test"))
      (Mock.mkMockResponse "") Mock.morning = (j', r', v', w', None) /\
    wire w' = [r'; authRequest j] /\
    Request.URL (authRequest j) = "http://127.0.0.1:8080/api/v1/auth/token".
Proof.
  destruct (new_client_requests_token_first Mock.server "fake-username"
              "mock-password-cool" None Mock.fresh
              (Mock.get (Mock.server +:+ "/JSSResource/mock/test"))
              (Mock.mkMockResponse "") Mock.morning eq_refl)
    as (_ & Hurl & _ & j' & r' & v' & w' & err & Hrun & Hsent).
  exists Mock.fresh, j', r', v', w'. split; [done|].
  assert (err = None /\ r' = setRequestHeaders j'
                            (Mock.get (Mock.server +:+ "/JSSResource/mock/test")))
    as [-> ->].
  { vm_compute in Hrun. by injection Hrun as <- <- _ _ <-. }
  split; [done|]. split; [|done].
  by destruct Hsent as [[_ ?]| ->].
Defined.

Lemma Computers_of_new_client_witness :
  exists j j' w' query,
    NewClient Mock.server "fake-username" "mock-password-cool"
      (Some (HttpClient.mk GoTime.Minute (Some MockInventory.transport))) =
      (Some j, None) /\
    Computers (MockInventory.mkRoster "") j Mock.morning =
      (Some (MockInventory.mkRoster "2"), j', w', None) /\
    wire w' = [query; authRequest j] /\
    Request.URL query = "http://127.0.0.1:8080/JSSResource/computers".
Proof.
  exists (MockInventory.client (JamfToken.mk "" "")),
    (MockInventory.client Mock.testToken).
  destruct (Computers (MockInventory.mkRoster "")
              (MockInventory.client (JamfToken.mk "" "")) Mock.morning)
    as [[[res j'] w'] err] eqn:Hrun.
  assert (res = Some (MockInventory.mkRoster "2") /\
          j' = MockInventory.client Mock.testToken /\ err = None) as (-> & -> & ->).
  { vm_compute in Hrun. by injection Hrun as <- <- _ <-. }
  destruct (Computers_of_new_client (MockInventory.mkRoster "") Mock.server
              "fake-username" "mock-password-cool"
              (Some (HttpClient.mk GoTime.Minute (Some MockInventory.transport)))
              _ _ _ _ _ eq_refl Hrun)
    as (query & Hwire & _ & Hurl & _).
  by exists w', query.
Defined.

Lemma ComputerDetails_result_witness :
  ComputerDetails (Mock.mkDevice "" "") MockInventory.EndpointBuilder id ""
    (MockInventory.client Mock.testToken) Mock.morning =
    (None, MockInventory.client Mock.testToken, Mock.morning,
     Some "error building JAMF query request endpoint for computer: : no identifier given") /\
  (exists j' w' msg,
     ComputerDetails (Mock.mkDevice "" "") MockInventory.EndpointBuilder id "3"
       (MockInventory.client Mock.testToken) Mock.morning =
       (None, j', w', Some msg) /\
     Mentions "3" msg /\
     Mentions "unknown type *classic.Computer" msg) /\
  (exists j' w' ep,
     ComputerDetails (Mock.mkDevice "" "") MockInventory.EndpointBuilder id "4"
       (MockInventory.client Mock.testToken) Mock.morning =
       (Some (Mock.mkDevice "lab-mac-04" "C02XK0AAJGH5"), j', w', None) /\
     MockInventory.EndpointBuilder (Mock.server +:+ "/JSSResource") "computers" "4" =
       inl ep).
Proof.
  split_and!.
  - destruct (ComputerDetails_result (Mock.mkDevice "" "")
                MockInventory.EndpointBuilder id ""
                (MockInventory.client Mock.testToken) Mock.morning)
      as (res & j' & w' & err & -> & Herror & Hbuilder & _).
    destruct (Hbuilder "no identifier given" eq_refl) as (-> & -> & ->).
    by destruct (Herror _ eq_refl) as [-> _].
  - destruct (ComputerDetails_result (Mock.mkDevice "" "")
                MockInventory.EndpointBuilder id "3"
                (MockInventory.client Mock.testToken) Mock.morning)
      as (res & j' & w' & err & Hrun & Herror & _ & _).
    assert (exists msg, err = Some msg /\
                        Mentions "unknown type *classic.Computer" msg)
      as (msg & -> & Hunknown).
    { apply (f_equal snd) in Hrun. vm_compute in Hrun. rewrite <- Hrun.
      eexists. split; [done|]. apply Contains_spec. by vm_compute. }
    destruct (Herror _ eq_refl) as [-> Hnamed].
    by exists j', w', msg.
  - destruct (ComputerDetails_result (Mock.mkDevice "" "")
                MockInventory.EndpointBuilder id "4"
                (MockInventory.client Mock.testToken) Mock.morning)
      as (res & j' & w' & err & Hrun & _ & _ & Hnil).
    assert (res = Some (Mock.mkDevice "lab-mac-04" "C02XK0AAJGH5") /\ err = None)
      as (-> & ->).
    { apply (f_equal (fun result => (result.1.1.1, result.2))) in Hrun.
      vm_compute in Hrun. by injection Hrun as <- <-. }
    destruct (Hnil eq_refl) as (ep & w1 & resp & Hep & _).
    by exists j', w', ep.
Defined.
